(** * Mala-booking: the services router and its media helpers

    A shallow embedding of [app/utils/cloudinary.py] and
    [app/routers/services.py].  Python values are a small sum type, dicts and
    ORM objects are finite maps from attribute names to values, exceptions
    are an explicit result type, and the request handlers live in a state
    and exception monad over a world holding the table of service rows, the
    list cache and the log of calls made to the outside. *)

From Stdlib Require Import ZArith String Ascii List Lia.
From stdpp Require Import base option list strings gmap fin_maps pretty.

Local Open Scope string_scope.
Local Open Scope Z_scope.
Local Open Scope list_scope.

(** ** Python values and exceptions *)

(** The values the handlers move around.  Floats ([price]) are carried and
    never inspected. *)
Inductive value : Type :=
  | VNone
  | VBool (b : bool)
  | VInt (z : Z)
  | VFloat (mantissa exponent : Z)
  | VStr (s : string).

(** Python truthiness, as used by [if x:] and [x and y]. *)
Definition truthy (v : value) : bool :=
  match v with
  | VNone => false
  | VBool b => b
  | VInt z => negb (z =? 0)
  | VFloat m _ => negb (m =? 0)
  | VStr s => negb (String.eqb s "")
  end.

Definition is_none (v : value) : bool :=
  match v with VNone => true | _ => false end.

(** The exceptions that occur: FastAPI's [HTTPException], the two built-in
    ones the string code can raise, and whatever the media SDK raises. *)
Inductive exception : Type :=
  | HTTPException (status_code : Z) (detail : string)
  | ValueError (msg : string)
  | IndexError (msg : string)
  | SdkError (msg : string).

(** [str(e)]. *)
Definition str_exc (e : exception) : string :=
  match e with
  | HTTPException c d => pretty c +:+ ": " +:+ d
  | ValueError m | IndexError m | SdkError m => m
  end.

(** A computation that returns or raises. *)
Inductive exc (A : Type) : Type :=
  | Val (a : A)
  | Exn (e : exception).
Arguments Val {A} a.
Arguments Exn {A} e.

Definition exc_bind {A B} (x : exc A) (f : A -> exc B) : exc B :=
  match x with Val a => f a | Exn e => Exn e end.

(** [try: body except Exception as e: handler(e)]. *)
Definition try_except {A} (body : exc A) (handler : exception -> exc A) : exc A :=
  match body with Val a => Val a | Exn e => handler e end.

(** ** Python's str and list operations *)

Module Py.

(** [s.split(sep)] for a one-character separator. *)
Fixpoint split (sep : ascii) (s : string) : list string :=
  match s with
  | EmptyString => [EmptyString]
  | String c s' =>
      if Ascii.eqb c sep then EmptyString :: split sep s'
      else match split sep s' with
           | [] => [String c EmptyString]
           | w :: ws => String c w :: ws
           end
  end.

(** [s.split(sep, 1)]: cut at the first separator only. *)
Fixpoint split_once (sep : ascii) (s : string) : list string :=
  match s with
  | EmptyString => [EmptyString]
  | String c s' =>
      if Ascii.eqb c sep then [EmptyString; s']
      else match split_once sep s' with
           | [] => [String c EmptyString]
           | w :: ws => String c w :: ws
           end
  end.

(** [sub in s]. *)
Fixpoint contains (sub s : string) : bool :=
  String.prefix sub s ||
  match s with
  | EmptyString => false
  | String _ s' => contains sub s'
  end.

(** [s.startswith(p)]. *)
Definition startswith (p s : string) : bool := String.prefix p s.

(** [sep.join(l)]. *)
Definition join (sep : string) (l : list string) : string := String.concat sep l.

(** [l.index(x)]: the first position of [x], or [ValueError]. *)
Fixpoint index_from (x : string) (l : list string) (i : nat) : exc nat :=
  match l with
  | [] => Exn (ValueError ("'" +:+ x +:+ "' is not in list"))
  | y :: l' => if String.eqb y x then Val i else index_from x l' (S i)
  end.
Definition index (x : string) (l : list string) : exc nat := index_from x l 0%nat.

(** [l[i]] for [i >= 0], or [IndexError]. *)
Definition getitem {A} (l : list A) (i : nat) : exc A :=
  match nth_error l i with
  | Some a => Val a
  | None => Exn (IndexError "list index out of range")
  end.

(** [l[i:]] for [i >= 0]. *)
Definition slice_from {A} (l : list A) (i : nat) : list A := skipn i l.

(** Index normalisation of a slice bound against a length [n]. *)
Definition adjust (n i : Z) : Z :=
  if i <? 0 then Z.max (i + n) 0 else Z.min i n.

(** [l[start:stop]] with Python's treatment of negative and
    out-of-range bounds. *)
Definition slice {A} (l : list A) (start stop : Z) : list A :=
  let n := Z.of_nat (length l) in
  let s := adjust n start in
  let e := adjust n stop in
  firstn (Z.to_nat (e - s)) (skipn (Z.to_nat s) l).

(** [s.replace(old, new)] for a non-empty [old]: leftmost,
    non-overlapping occurrences.  The fuel is the length of [s]. *)
Fixpoint replace_fuel (fuel : nat) (old new s : string) : string :=
  match fuel with
  | O => s
  | S fuel' =>
      match s with
      | EmptyString => EmptyString
      | String c s' =>
          if String.prefix old s
          then new +:+ replace_fuel fuel' old new
                         (String.substring (String.length old)
                            (String.length s - String.length old)%nat s)
          else String c (replace_fuel fuel' old new s')
      end
  end.
Definition replace (old new s : string) : string :=
  replace_fuel (String.length s) old new s.

End Py.

(** ** app/utils/cloudinary.py: [extract_public_id] *)

(** The body of the [try] block of [extract_public_id]. *)
Definition extract_public_id_try (url : string) : exc (option string) :=
  let parts := Py.split "/" url in
  exc_bind (Py.index "upload" parts) (fun upload_index =>
  let public_id_parts := Py.slice_from parts (upload_index + 1)%nat in
  exc_bind (Py.getitem public_id_parts 0%nat) (fun first =>
  let public_id_parts :=
    if Py.startswith "v" first then Py.slice_from public_id_parts 1%nat
    else public_id_parts in
  let public_id := Py.join "/" public_id_parts in
  exc_bind (Py.getitem (Py.split "." public_id) 0%nat) (fun r => Val (Some r)))).

Definition extract_public_id (url : string) : exc (option string) :=
  if negb (truthy (VStr url)) then Val None
  else if negb (Py.contains "res.cloudinary.com" url) then
    exc_bind (Py.getitem (Py.split "." url) 0%nat) (fun r => Val (Some r))
  else
    try_except (extract_public_id_try url) (fun _ => Val None).

(** ** The world the handlers run in *)

(** A dict, and the attributes of an ORM or schema object. *)
Abbreviation obj := (gmap string value).

(** [getattr(o, k)] on an object whose missing attributes read as [None]
    (a nullable column, an optional schema field). *)
Definition attr (o : obj) (k : string) : value := default VNone (o !! k).

(** A nullable string column read as a string: [None] and non-strings give
    nothing. *)
Definition str_attr (o : obj) (k : string) : option string :=
  match attr o k with VStr s => Some s | _ => None end.

(** Truthiness of an optional string ([if s:]). *)
Definition truthy_str (o : option string) : bool :=
  match o with Some s => truthy (VStr s) | None => false end.

(** The columns of [models.Service], as [read_services] reads them. *)
Definition service_columns : list string :=
  ["service_id"; "name"; "description"; "duration"; "price"; "image_url";
   "salon_id"; "created_at"; "updated_at"].

(** What [cloudinary.uploader.upload] answers with. *)
Record upload_result : Type := {
  ur_public_id : string;
  ur_secure_url : string;
  ur_format : string
}.

(** The remote media host: each call answers or raises.  [destroy] answers
    with a dict, of which only [result.get('result')] is read. *)
Record media_host : Type := {
  uploader_upload : string -> string -> option string -> exc upload_result;
  uploader_destroy : string -> exc (option string)
}.

(** Calls made to the outside, in the order they happen. *)
Inductive event : Type :=
  | EvUpload (file folder : string) (public_id : option string)
  | EvDestroy (public_id : string)
  | EvDbFirst (service_id : Z)
  | EvDbPage (skip limit : Z)
  | EvDbInsert (row : obj)
  | EvDbUpdate (service_id : Z) (row : obj)
  | EvDbDelete (service_id : Z)
  | EvCacheGet
  | EvCachePopulate (services : list obj)
  | EvCacheInvalidate.

(** True of the events that write to the services table. *)
Definition is_db_write (e : event) : bool :=
  match e with
  | EvDbInsert _ | EvDbUpdate _ _ | EvDbDelete _ => true
  | _ => false
  end.

Record world : Type := {
  table : list obj;               (* committed rows, in storage order *)
  next_id : Z;                    (* the next key the store hands out *)
  cache : option (list obj);      (* the list cache; [None] when invalid *)
  calls : list event              (* log of calls, oldest first *)
}.

Definition log (e : event) (w : world) : world :=
  {| table := table w; next_id := next_id w; cache := cache w;
     calls := calls w ++ [e] |}.

Definition set_table (t : list obj) (w : world) : world :=
  {| table := t; next_id := next_id w; cache := cache w; calls := calls w |}.

Definition set_cache (c : option (list obj)) (w : world) : world :=
  {| table := table w; next_id := next_id w; cache := c; calls := calls w |}.

(** ** The handler monad: state and exceptions *)

Definition M (A : Type) : Type := world -> exc A * world.

#[global] Instance M_ret : MRet M := fun A (a : A) (w : world) => (Val a, w).

#[global] Instance M_bind : MBind M :=
  fun A B (f : A -> M B) (m : M A) (w : world) =>
    match m w with
    | (Val a, w') => f a w'
    | (Exn e, w') => (Exn e, w')
    end.

Definition raise {A} (e : exception) : M A := fun w => (Exn e, w).

Definition lift {A} (x : exc A) : M A := fun w => (x, w).

(** [try: body except Exception as e: handler(e)] around effects: the
    effects of [body] up to the raise stay. *)
Definition try_exceptM {A} (body : M A) (handler : exception -> M A) : M A :=
  fun w =>
    match body w with
    | (Val a, w') => (Val a, w')
    | (Exn e, w') => handler e w'
    end.

(** ** The record store and the list cache *)

(** Only the column attributes of an object reach the table. *)
Definition persist (o : obj) : obj :=
  filter (fun kv => kv.1 ∈ service_columns) o.

Definition has_id (service_id : Z) (r : obj) : bool :=
  match attr r "service_id" with
  | VInt z => z =? service_id
  | _ => false
  end.

(** [db.query(models.Service).filter(service_id == id).first()]. *)
Definition db_first (service_id : Z) : M (option obj) :=
  fun w => (Val (List.find (has_id service_id) (table w)),
            log (EvDbFirst service_id) w).

(** [db.add(o); db.commit(); db.refresh(o)] on a store that accepts the
    write: the store assigns the key and the object comes back as stored.
    A commit the database refuses, and the timestamps and defaults it
    fills in, are outside this model; what is proved of a handler that
    commits is proved of its runs that return. *)
Definition db_add_commit_refresh (o : obj) : M obj :=
  fun w =>
    let row := <["service_id" := VInt (next_id w)]> (persist o) in
    (Val row,
     log (EvDbInsert row)
       {| table := table w ++ [row]; next_id := next_id w + 1;
          cache := cache w; calls := calls w |}).

(** [db.commit(); db.refresh(o)] after attributes of the loaded object [o]
    were set, on a store that accepts the write: its row is rewritten, the
    object keeps its other attributes.  A refused commit and the
    store-assigned [updated_at] are outside this model. *)
Definition db_commit_refresh (service_id : Z) (o : obj) : M obj :=
  fun w =>
    (Val o,
     log (EvDbUpdate service_id (persist o))
       (set_table
          (map (fun r => if has_id service_id r then persist o else r) (table w))
          w)).

(** [db.delete(o); db.commit()] on a store that accepts the write; a
    refused commit is outside this model. *)
Definition db_delete_commit (service_id : Z) : M unit :=
  fun w =>
    (Val tt,
     log (EvDbDelete service_id)
       (set_table (List.filter (fun r => negb (has_id service_id r)) (table w)) w)).

(** Modelled from the spec: [get_cached_service] of [app/utils/cache.py],
    which is not among the sources.  "Returns the cached sequence if valid,
    else signals miss." *)
Definition get_cached_service : M (option (list obj)) :=
  fun w => (Val (cache w), log EvCacheGet w).

(** Modelled from the spec: [cache_services_response] of
    [app/utils/cache.py].  "Replaces cached content, marks valid"; it never
    raises. *)
Definition cache_services_response (services : list obj) : M unit :=
  fun w => (Val tt, log (EvCachePopulate services) (set_cache (Some services) w)).

(** Modelled from the spec: [invalidate_services_cache] of
    [app/utils/cache.py].  "Marks cache invalid; idempotent"; it never
    raises. *)
Definition invalidate_services_cache : M unit :=
  fun w => (Val tt, log EvCacheInvalidate (set_cache None w)).

(** Truthiness of what the cache hands back ([if cached_services:]). *)
Definition truthy_cached (c : option (list obj)) : bool :=
  match c with
  | Some (_ :: _) => true
  | _ => false
  end.

(** ** Request and response shapes *)

(** The dict [upload_image_cloudinary] returns. *)
Record upload_dict : Type := {
  ud_public_id : string;
  ud_url : string;
  ud_format : string
}.

(** [schemas.ServiceCreate]: the optional image payload, and the other
    fields as [model_dump(exclude={"image_base64"})] gives them. *)
Record ServiceCreate : Type := {
  sc_fields : obj;
  sc_image_base64 : option string
}.

(** [schemas.ServiceUpdate]: the two image controls, and the other fields
    by name ([None] where the request leaves one out). *)
Record ServiceUpdate : Type := {
  su_fields : obj;
  su_image_base64 : option string;
  su_remove_image : option bool
}.

(** The dict [delete_service] and [delete_cloudinary_image] return
    ([schemas.ImageDeleteResponse]). *)
Record ImageDeleteResponse : Type := {
  success : bool;
  message : string;
  public_id : option string
}.

(** [schemas.ImageUpload]: the payload and the icon flag. *)
Record ImageUpload : Type := {
  iu_image_base64 : option string;
  iu_is_icon : option bool
}.

(** The dict [upload_service_image] returns
    ([schemas.ImageUploadResponse]). *)
Record ImageUploadResponse : Type := {
  iur_success : bool;
  iur_url : string;
  iur_public_id : string
}.

Definition truthy_bool (o : option bool) : bool := default false o.

Definition exclude_none (d : obj) : obj :=
  filter (fun kv => is_none kv.2 = false) d.

Definition with_field (k : string) (v : option value) (d : obj) : obj :=
  match v with Some x => <[k := x]> d | None => d end.

(** [service_update.dict(exclude_none=True)]. *)
Definition su_dict_exclude_none (u : ServiceUpdate) : obj :=
  with_field "remove_image" (VBool <$> su_remove_image u)
    (with_field "image_base64" (VStr <$> su_image_base64 u)
       (exclude_none (su_fields u))).

(** [for key, val in d.items(): setattr(o, key, val)]. *)
Definition setattrs (d o : obj) : obj := d ∪ o.

(** [d[k] = v] on a dict kept in insertion order. *)
Fixpoint dict_set {V} (k : string) (v : V) (d : list (string * V))
  : list (string * V) :=
  match d with
  | [] => [(k, v)]
  | (k', v') :: d' =>
      if String.eqb k' k then (k, v) :: d' else (k', v') :: dict_set k v d'
  end.

(** The [schemas.Service(...)] built from a row in [read_services]. *)
Definition serialize (service : obj) : obj :=
  list_to_map ((fun k => (k, attr service k)) <$> service_columns).

Section Handlers.

(** The media host the SDK talks to, and the page of rows the database
    answers [.offset(skip).limit(limit).all()] with on a given table. *)
Variable host : media_host.
Variable page : list obj -> Z -> Z -> list obj.

(** *** app/utils/cloudinary.py *)

Definition call_upload (file folder : string) (public_id : option string)
  : M upload_result :=
  fun w => (uploader_upload host file folder public_id,
            log (EvUpload file folder public_id) w).

Definition call_destroy (public_id : string) : M (option string) :=
  fun w => (uploader_destroy host public_id, log (EvDestroy public_id) w).

Definition upload_image_cloudinary (file_base64 folder : string)
    (public_id : option string) : M upload_dict :=
  try_exceptM
    (file_base64 ← lift (if Py.startswith "data:" file_base64
                         then Py.getitem (Py.split_once "," file_base64) 1%nat
                         else Val file_base64);
     upload_result ← call_upload ("data:image/png;base64," +:+ file_base64)
                                 folder public_id;
     mret {| ud_public_id := ur_public_id upload_result;
             ud_url := ur_secure_url upload_result;
             ud_format := ur_format upload_result |})
    (fun e => raise (HTTPException 400 ("Image upload failed: " +:+ str_exc e))).

Definition delete_image_from_cloudinary (public_id : string) : M bool :=
  try_exceptM
    (result ← call_destroy public_id;
     if bool_decide (result = Some "ok") then mret true else mret false)
    (fun _ => mret false).

(** *** app/routers/services.py *)

Definition create_service (service : ServiceCreate) : M obj :=
  let service_data := sc_fields service in
  service_data ←
    (if truthy_str (sc_image_base64 service) then
       image_result ← upload_image_cloudinary
                        (default "" (sc_image_base64 service))
                        "services/images" None;
       mret (<["image_url" := VStr (ud_url image_result)]> service_data)
     else mret service_data);
  db_service ← db_add_commit_refresh service_data;
  invalidate_services_cache;;
  mret db_service.

(** [db.query(models.Service).offset(skip).limit(limit).all()]. *)
Definition db_page (skip limit : Z) : M (list obj) :=
  fun w => (Val (page (table w) skip limit), log (EvDbPage skip limit) w).

(** [read_services] once [skip] and [limit] are settled. *)
Definition read_services_page (skip limit : Z) : M (list obj) :=
  cached_services ← get_cached_service;
  if truthy_cached cached_services then
    mret (Py.slice (default [] cached_services) skip (skip + limit))
  else
    results ← db_page skip limit;
    match results with
    | [] => raise (HTTPException 404 "No Services Found")
    | _ :: _ =>
        let serialized_services := serialize <$> results in
        cache_services_response serialized_services;;
        mret serialized_services
    end.

Definition read_services (skip limit : Z) : M (list obj) :=
  let limit := if limit >? 100 then 100 else limit in
  let skip := if skip <? 0 then 0 else skip in
  read_services_page skip limit.

Definition read_service (service_id : Z) : M obj :=
  service ← db_first service_id;
  match service with
  | None => raise (HTTPException 404 "Service not found")
  | Some service => mret service
  end.

(** The [remove_image] step of [update_service]. *)
Definition update_remove_image (service_update : ServiceUpdate)
    (db_service update_data : obj) : M obj :=
  if truthy_bool (su_remove_image service_update)
     && truthy_str (str_attr db_service "image_url")
  then
    public_id ← lift (extract_public_id
                        (default "" (str_attr db_service "image_url")));
    if truthy_str public_id then
      deleted ← delete_image_from_cloudinary (default "" public_id);
      if deleted : bool then mret (<["image_url" := VNone]> update_data)
      else mret update_data
    else mret update_data
  else mret update_data.

(** The [image_base64] step of [update_service]. *)
Definition update_upload_image (service_update : ServiceUpdate)
    (update_data : obj) : M obj :=
  if truthy_str (su_image_base64 service_update) then
    result ← upload_image_cloudinary
               (default "" (su_image_base64 service_update))
               "services/images" None;
    mret (<["image_url" := VStr (ud_url result)]> update_data)
  else mret update_data.

Definition update_service (service_id : Z) (service_update : ServiceUpdate)
  : M obj :=
  found ← db_first service_id;
  match found with
  | None => raise (HTTPException 404 "Service was not found")
  | Some db_service =>
      let db_service :=
        setattrs (su_dict_exclude_none service_update) db_service in
      let update_data :=
        delete "remove_image"
          (delete "image_base64" (su_dict_exclude_none service_update)) in
      update_data ← update_remove_image service_update db_service update_data;
      update_data ← update_upload_image service_update update_data;
      let db_service := setattrs update_data db_service in
      db_service ← db_commit_refresh service_id db_service;
      invalidate_services_cache;;
      mret db_service
  end.

(** The loop [for asset_type in ['image_url']] of [delete_service]. *)
Fixpoint delete_assets (db_service : obj) (asset_types : list string)
    (deletion_results : list (string * bool)) : M (list (string * bool)) :=
  match asset_types with
  | [] => mret deletion_results
  | asset_type :: rest =>
      deletion_results ←
        (if truthy_str (str_attr db_service asset_type) then
           public_id ← lift (extract_public_id
                               (default "" (str_attr db_service asset_type)));
           if truthy_str public_id then
             deleted ← delete_image_from_cloudinary (default "" public_id);
             mret (dict_set asset_type deleted deletion_results)
           else mret deletion_results
         else mret deletion_results);
      delete_assets db_service rest deletion_results
  end.

Definition delete_service (service_id : Z) : M ImageDeleteResponse :=
  found ← db_first service_id;
  match found with
  | None => raise (HTTPException 404 "Service not found")
  | Some db_service =>
      deletion_results ← delete_assets db_service ["image_url"] [];
      db_delete_commit service_id;;
      invalidate_services_cache;;
      let deleted_assets :=
        (fun kv => Py.replace "_url" "" kv.1)
          <$> List.filter (fun kv : string * bool => kv.2) deletion_results in
      let joined := Py.join ", " deleted_assets in
      let message :=
        "Service deleted successfully. " +:+
        "Deleted " +:+ pretty (length deleted_assets) +:+
        " associated assets: " +:+
        (if truthy (VStr joined) then joined else "none") in
      mret {| success := true;
              message := message;
              public_id := match deletion_results with
                           | [] => None
                           | (k, _) :: _ => Some k
                           end |}
  end.

(** [DELETE /services/images/{public_id}]. *)
Definition delete_cloudinary_image (public_id : string)
  : M ImageDeleteResponse :=
  try_exceptM
    (extracted ← lift (extract_public_id public_id);
     let clean_public_id :=
       if truthy_str extracted then default "" extracted else public_id in
     if Py.contains "http" clean_public_id then
       raise (HTTPException 400
                "Please provide only the public_id, not full URL")
     else
       success ← delete_image_from_cloudinary clean_public_id;
       if success : bool then
         mret {| success := true;
                 message := "Image " +:+ clean_public_id +:+
                            " deleted successfully";
                 public_id := Some clean_public_id |}
       else
         raise (HTTPException 404
                  ("Image " +:+ clean_public_id +:+
                   " not found or already deleted")))
    (fun e =>
       match e with
       | HTTPException _ _ => raise e
       | _ => raise (HTTPException 500
                       ("Error deleting image: " +:+ str_exc e))
       end).

(** [POST /services/upload-image/]. *)
Definition upload_service_image (upload_data : ImageUpload)
  : M ImageUploadResponse :=
  try_exceptM
    (if negb (truthy_str (iu_image_base64 upload_data)) then
       raise (HTTPException 400 "image_base64 is required")
     else
       let folder := if truthy_bool (iu_is_icon upload_data)
                     then "services/icons" else "services/images" in
       result ← upload_image_cloudinary
                  (default "" (iu_image_base64 upload_data)) folder None;
       mret {| iur_success := true;
               iur_url := ud_url result;
               iur_public_id := ud_public_id result |})
    (fun e =>
       match e with
       | HTTPException _ _ => raise e
       | _ => raise (HTTPException 500 ("Unexpected error: " +:+ str_exc e))
       end).

End Handlers.

(** ** Concrete collaborators, for running the handlers *)

(** A database that pages in storage order. *)
Definition sql_page (rows : list obj) (skip limit : Z) : list obj :=
  firstn (Z.to_nat limit) (skipn (Z.to_nat skip) rows).

(** A host that accepts every upload and confirms every removal. *)
Definition host_ok : media_host :=
  {| uploader_upload := fun _ folder _ =>
       Val {| ur_public_id := folder +:+ "/new";
              ur_secure_url :=
                "https://res.cloudinary.com/demo/image/upload/v9/" +:+
                folder +:+ "/new.png";
              ur_format := "png" |};
     uploader_destroy := fun _ => Val (Some "ok") |}.

(** A host that accepts uploads and finds nothing to remove. *)
Definition host_keep : media_host :=
  {| uploader_upload := uploader_upload host_ok;
     uploader_destroy := fun _ => Val (Some "not found") |}.

(** A host that cannot be reached. *)
Definition host_down : media_host :=
  {| uploader_upload := fun _ _ _ => Exn (SdkError "unreachable");
     uploader_destroy := fun _ => Exn (SdkError "unreachable") |}.

Definition abc_url : string :=
  "https://res.cloudinary.com/demo/image/upload/v123/services/images/abc.jpg".

(** A stored service with an image. *)
Definition haircut : obj :=
  <["service_id" := VInt 1]>
    (<["name" := VStr "Haircut"]>
       (<["image_url" := VStr abc_url]> ∅)).

Definition world0 : world :=
  {| table := []; next_id := 1; cache := None; calls := [] |}.

Definition world1 : world :=
  {| table := [haircut]; next_id := 2; cache := None; calls := [] |}.

(** The update asking both to drop the image and to store a new one. *)
Definition replace_request : ServiceUpdate :=
  {| su_fields := ∅; su_image_base64 := Some "QUJD";
     su_remove_image := Some true |}.

(** The update asking only to drop the image. *)
Definition remove_request : ServiceUpdate :=
  {| su_fields := ∅; su_image_base64 := None; su_remove_image := Some true |}.

(** A creation with an image payload. *)
Definition create_request : ServiceCreate :=
  {| sc_fields := {["name" := VStr "Haircut"]}; sc_image_base64 := Some "QUJD" |}.

(** A host that removes blobs and takes no upload. *)
Definition host_full : media_host :=
  {| uploader_upload := fun _ _ _ => Exn (SdkError "quota exceeded");
     uploader_destroy := fun _ => Val (Some "ok") |}.

(** A second stored service, without an image. *)
Definition shave : obj :=
  <["service_id" := VInt 2]> (<["name" := VStr "Shave"]> ∅).

Definition world2 : world :=
  {| table := [haircut; shave]; next_id := 3; cache := None; calls := [] |}.

(** An update of the name alone. *)
Definition rename_request : ServiceUpdate :=
  {| su_fields := <["name" := VStr "Trim"]> (<["description" := VNone]> ∅);
     su_image_base64 := None; su_remove_image := None |}.

(** A creation without an image payload. *)
Definition plain_request : ServiceCreate :=
  {| sc_fields := {["name" := VStr "Shave"]}; sc_image_base64 := None |}.

(** ** Derived notions used in the statements *)

(** The stretch of the log a computation adds. *)
Definition extends (w w' : world) (evs : list event) : Prop :=
  calls w' = calls w ++ evs.

(** Nothing but the log differs. *)
Definition same_store (w w' : world) : Prop :=
  table w' = table w /\ next_id w' = next_id w /\ cache w' = cache w.

(** Does the host confirm the removal of [public_id]? *)
Definition destroy_ok (host : media_host) (public_id : string) : bool :=
  match uploader_destroy host public_id with
  | Val (Some r) => String.eqb r "ok"
  | _ => false
  end.

(** The payload [upload_image_cloudinary] sends, once a data-URL prefix is
    cut off. *)
Definition upload_payload (file_base64 : string) : exc string :=
  if Py.startswith "data:" file_base64
  then Py.getitem (Py.split_once "," file_base64) 1%nat
  else Val file_base64.

(** The blob the [remove_image] step of an update goes after, if any: the
    flag is set, the record has an image, and its id resolves to something
    non-empty. *)
Definition removal_target (u : ServiceUpdate) (db_service : obj)
  : option string :=
  if truthy_bool (su_remove_image u)
     && truthy_str (str_attr db_service "image_url")
  then
    match extract_public_id (default "" (str_attr db_service "image_url")) with
    | Val (Some public_id) =>
        if truthy (VStr public_id) then Some public_id else None
    | _ => None
    end
  else None.

(** The object [update_service] works on after its first [setattr] loop,
    and the field set it starts the image handling with. *)
Definition update_loaded (u : ServiceUpdate) (db_service : obj) : obj :=
  setattrs (su_dict_exclude_none u) db_service.

Definition update_fields (u : ServiceUpdate) : obj :=
  delete "remove_image" (delete "image_base64" (su_dict_exclude_none u)).

(** What a call returned, if it returned. *)
Definition returned {A} (x : exc A * world) : option A :=
  match x.1 with Val a => Some a | Exn _ => None end.

(** The record [update_service] hands back for [replace_request] on
    [world1] with a host that accepts everything. *)
Definition replaced : exc obj * world :=
  Eval vm_compute in update_service host_ok 1 replace_request world1.

(** The blob [delete_service] goes after for an asset attribute of the
    record, if any. *)
Definition asset_target (db_service : obj) (asset_type : string)
  : option string :=
  if truthy_str (str_attr db_service asset_type) then
    match extract_public_id (default "" (str_attr db_service asset_type)) with
    | Val (Some public_id) =>
        if truthy (VStr public_id) then Some public_id else None
    | _ => None
    end
  else None.

(** The summary [delete_service] builds from what the loop recorded. *)
Definition delete_summary (attempt : option bool) : ImageDeleteResponse :=
  match attempt with
  | Some true =>
      {| success := true;
         message := "Service deleted successfully. " +:+
                    "Deleted 1 associated assets: image";
         public_id := Some "image_url" |}
  | Some false =>
      {| success := true;
         message := "Service deleted successfully. " +:+
                    "Deleted 0 associated assets: none";
         public_id := Some "image_url" |}
  | None =>
      {| success := true;
         message := "Service deleted successfully. " +:+
                    "Deleted 0 associated assets: none";
         public_id := None |}
  end.

(** The three mutations run against a host that accepts everything. *)
Definition created : exc obj * world :=
  Eval vm_compute in create_service host_ok create_request world0.

Definition removed : exc ImageDeleteResponse * world :=
  Eval vm_compute in delete_service host_ok 1 world1.

(** A world whose cache holds the one stored service. *)
Definition world_cached : world :=
  {| table := [haircut]; next_id := 2; cache := Some [serialize haircut];
     calls := [] |}.

(** The id [delete_cloudinary_image] works with:
    [extract_public_id(public_id) or public_id]. *)
Definition clean_public_id (public_id : string) : string :=
  match extract_public_id public_id with
  | Val (Some extracted) =>
      if truthy (VStr extracted) then extracted else public_id
  | _ => public_id
  end.

(** * Properties *)

(** ** Strings and lists *)

Lemma split_nonempty sep s : Py.split sep s <> [].
Proof.
  destruct s as [|c s]; simpl; [discriminate|].
  destruct (Ascii.eqb c sep); [discriminate|].
  destruct (Py.split sep s); discriminate.
Qed.

Lemma getitem_split_head sep s : exists r, Py.getitem (Py.split sep s) 0%nat = Val r.
Proof.
  pose proof (split_nonempty sep s) as H.
  destruct (Py.split sep s) as [|r l]; [contradiction|].
  exists r. reflexivity.
Qed.

Lemma index_from_app x pre rest i :
  Forall (fun y => y <> x) pre ->
  Py.index_from x (pre ++ x :: rest) i = Val (i + length pre)%nat.
Proof.
  intros Hpre. revert i.
  induction Hpre as [|y pre Hy _ IH]; intros i; simpl.
  - rewrite String.eqb_refl. f_equal. lia.
  - apply String.eqb_neq in Hy. rewrite Hy, IH. f_equal. lia.
Qed.

(** A URL with the host marker whose path is [.../upload/v<version>/rest]
    yields [rest] up to its first dot. *)
Lemma extract_public_id_versioned url pre version rest :
  url <> "" ->
  Py.contains "res.cloudinary.com" url = true ->
  Py.split "/" url = pre ++ "upload" :: version :: rest ->
  Forall (fun y => y <> "upload") pre ->
  Py.startswith "v" version = true ->
  extract_public_id url =
  exc_bind (Py.getitem (Py.split "." (Py.join "/" rest)) 0%nat)
           (fun r => Val (Some r)).
Proof.
  intros Hne Hin Hsplit Hpre Hv.
  unfold extract_public_id. simpl truthy.
  apply String.eqb_neq in Hne. rewrite Hne, Hin. simpl negb. cbv iota.
  unfold extract_public_id_try. rewrite Hsplit.
  unfold Py.index. rewrite index_from_app by assumption.
  unfold Py.slice_from, exc_bind at 1.
  replace (0 + length pre + 1)%nat with (length pre + 1)%nat by lia.
  rewrite skipn_app, skipn_all2 by lia.
  replace (length pre + 1 - length pre)%nat with 1%nat by lia.
  simpl. rewrite Hv.
  destruct (getitem_split_head "." (Py.join "/" rest)) as [r Hr].
  unfold Py.join in *. rewrite drop_0, Hr. reflexivity.
Qed.

(** C3, as amended: on the reference URL whose host carries the marker
    [res.cloudinary.com], [extract_public_id] parses the path after
    [upload], drops the version segment and strips the extension, giving
    ["services/images/abc"].  The same path under the host ["host"] lacks
    the marker and is treated as a bare id: it comes back cut at its first
    dot. *)
Theorem extract_public_id_reference_url :
  extract_public_id
    "https://res.cloudinary.com/demo/image/upload/v123/services/images/abc.jpg"
  = Val (Some "services/images/abc")
  /\ extract_public_id
       "https://host/demo/image/upload/v123/services/images/abc.jpg"
     = Val (Some "https://host/demo/image/upload/v123/services/images/abc").
Proof.
  split.
  - rewrite (extract_public_id_versioned _ ["https:"; ""; "res.cloudinary.com";
                                            "demo"; "image"]
               "v123" ["services"; "images"; "abc.jpg"]).
    + reflexivity.
    + discriminate.
    + reflexivity.
    + reflexivity.
    + repeat constructor; discriminate.
    + reflexivity.
  - reflexivity.
Qed.

(** C3, as stated, fails: the URL of the claim has no host marker, so the
    result is not ["services/images/abc"]. *)
Lemma extract_public_id_host_url_not_parsed :
  extract_public_id "https://host/demo/image/upload/v123/services/images/abc.jpg"
  <> Val (Some "services/images/abc").
Proof. vm_compute. discriminate. Qed.

(** [extract_public_id] returns for every input. *)
Lemma extract_public_id_total url : exists r, extract_public_id url = Val r.
Proof.
  unfold extract_public_id.
  destruct (negb (truthy (VStr url))); [eauto|].
  destruct (negb (Py.contains "res.cloudinary.com" url)).
  - destruct (getitem_split_head "." url) as [r ->]. simpl. eauto.
  - unfold try_except. destruct (extract_public_id_try url); eauto.
Qed.

(** Without the host marker a non-empty input comes back cut at its first
    dot, never as [None]. *)
Lemma extract_public_id_bare url :
  url <> "" ->
  Py.contains "res.cloudinary.com" url = false ->
  exists r, extract_public_id url = Val (Some r)
            /\ Py.getitem (Py.split "." url) 0%nat = Val r.
Proof.
  intros Hne Hin. unfold extract_public_id. simpl truthy.
  apply String.eqb_neq in Hne. rewrite Hne, Hin. simpl.
  destruct (getitem_split_head "." url) as [r ->]. simpl. eauto.
Qed.

(** C4, as amended: on ["not a valid url"] the call does not raise and
    returns the input itself, as a bare id with no extension to strip; it
    raises on no input at all.  [None] is what comes back for the empty
    string and for an input with the host marker and no [upload]
    segment. *)
Theorem extract_public_id_not_a_url :
  extract_public_id "not a valid url" = Val (Some "not a valid url")
  /\ (forall url, exists r, extract_public_id url = Val r)
  /\ extract_public_id "" = Val None
  /\ extract_public_id "res.cloudinary.com/not a valid url" = Val None.
Proof.
  split; [reflexivity|]. split; [apply extract_public_id_total|].
  split; reflexivity.
Qed.

(** C4, as stated, fails: the result on ["not a valid url"] is not
    [None]. *)
Lemma extract_public_id_not_a_url_is_some :
  extract_public_id "not a valid url" <> Val None.
Proof. vm_compute. discriminate. Qed.


(** ** Running the monad *)

Lemma bind_run {A B} (m : M A) (f : A -> M B) (w : world) :
  (m ≫= f) w = match m w with
               | (Val a, w') => f a w'
               | (Exn e, w') => (Exn e, w')
               end.
Proof. reflexivity. Qed.

Lemma bind_val {A B} (m : M A) (f : A -> M B) w b w' :
  (m ≫= f) w = (Val b, w') ->
  exists a w1, m w = (Val a, w1) /\ f a w1 = (Val b, w').
Proof.
  rewrite bind_run. destruct (m w) as [[a|e] w1]; [eauto | discriminate].
Qed.

Lemma bind_exn {A B} (m : M A) (f : A -> M B) w e w' :
  m w = (Exn e, w') -> (m ≫= f) w = (Exn e, w').
Proof. intros H. rewrite bind_run, H. reflexivity. Qed.

Lemma same_store_log e w : same_store w (log e w).
Proof. repeat split. Qed.

Lemma same_store_refl w : same_store w w.
Proof. repeat split. Qed.

Lemma same_store_trans w1 w2 w3 :
  same_store w1 w2 -> same_store w2 w3 -> same_store w1 w3.
Proof. intros (?&?&?) (?&?&?). repeat split; congruence. Qed.

Create HintDb store.
#[local] Hint Resolve same_store_log same_store_refl : store.

(** ** The media helpers *)

Lemma delete_image_run host public_id w :
  delete_image_from_cloudinary host public_id w
  = (Val (destroy_ok host public_id), log (EvDestroy public_id) w).
Proof.
  unfold delete_image_from_cloudinary, try_exceptM, call_destroy, destroy_ok.
  rewrite bind_run.
  destruct (uploader_destroy host public_id) as [[r|]|e]; try reflexivity.
  case_bool_decide as Hr.
  - injection Hr as ->. reflexivity.
  - destruct (String.eqb_spec r "ok") as [->|]; [contradiction | reflexivity].
Qed.

Lemma upload_image_run host file_base64 folder public_id w :
  upload_image_cloudinary host file_base64 folder public_id w
  = match upload_payload file_base64 with
    | Exn e =>
        (Exn (HTTPException 400 ("Image upload failed: " +:+ str_exc e)), w)
    | Val p =>
        let file := "data:image/png;base64," +:+ p in
        match uploader_upload host file folder public_id with
        | Val r =>
            (Val {| ud_public_id := ur_public_id r;
                    ud_url := ur_secure_url r;
                    ud_format := ur_format r |},
             log (EvUpload file folder public_id) w)
        | Exn e =>
            (Exn (HTTPException 400 ("Image upload failed: " +:+ str_exc e)),
             log (EvUpload file folder public_id) w)
        end
    end.
Proof.
  unfold upload_image_cloudinary, try_exceptM, call_upload, upload_payload, lift.
  rewrite bind_run.
  destruct (if Py.startswith "data:" file_base64 then _ else _) as [p|e];
    [|reflexivity].
  rewrite bind_run.
  destruct (uploader_upload host _ folder public_id); reflexivity.
Qed.

(** A failed upload is an [HTTPException] with status 400 whose detail
    names the cause, and it leaves the store as it was, with at most the
    upload call added to the log. *)
Lemma upload_image_failure host file_base64 folder public_id w e w1 :
  upload_image_cloudinary host file_base64 folder public_id w = (Exn e, w1) ->
  (exists cause, e = HTTPException 400 ("Image upload failed: " +:+ cause))
  /\ same_store w w1
  /\ (extends w w1 [] \/ exists file, extends w w1 [EvUpload file folder public_id]).
Proof.
  rewrite upload_image_run.
  destruct (upload_payload file_base64) as [p|e0].
  - cbv zeta. destruct (uploader_upload host _ folder public_id) as [r|e0];
      [discriminate|].
    intros [= <- <-]. split; [eauto|]. split; [auto with store|].
    right. eexists. reflexivity.
  - intros [= <- <-]. split; [eauto|]. split; [auto with store|].
    left. unfold extends. symmetry. apply app_nil_r.
Qed.

(** A successful upload made exactly one call, which the host accepted. *)
Lemma upload_image_success host file_base64 folder public_id w d w1 :
  upload_image_cloudinary host file_base64 folder public_id w = (Val d, w1) ->
  exists file r,
    uploader_upload host file folder public_id = Val r
    /\ ud_url d = ur_secure_url r
    /\ w1 = log (EvUpload file folder public_id) w.
Proof.
  rewrite upload_image_run.
  destruct (upload_payload file_base64) as [p|e0]; [|discriminate].
  cbv zeta.
  destruct (uploader_upload host _ folder public_id) as [r|e0] eqn:Hr;
    [|discriminate].
  intros [= <- <-]. eauto.
Qed.

(** A successful upload sent the payload of its input, behind the fixed
    prefix, in its one call. *)
Lemma upload_image_success_payload host file_base64 folder public_id w d w1 :
  upload_image_cloudinary host file_base64 folder public_id w = (Val d, w1) ->
  exists p r,
    upload_payload file_base64 = Val p
    /\ uploader_upload host ("data:image/png;base64," +:+ p) folder public_id
       = Val r
    /\ d = {| ud_public_id := ur_public_id r;
              ud_url := ur_secure_url r;
              ud_format := ur_format r |}
    /\ w1 = log (EvUpload ("data:image/png;base64," +:+ p) folder public_id) w.
Proof.
  rewrite upload_image_run.
  destruct (upload_payload file_base64) as [p|e0]; [|discriminate].
  cbv zeta.
  destruct (uploader_upload host _ folder public_id) as [r|e0] eqn:Hr;
    [|discriminate].
  intros [= <- <-]. exists p, r. auto.
Qed.

(** The outcome of an upload does not depend on the world it runs in. *)
Lemma upload_image_result_any_world host file_base64 folder public_id w1 w2 :
  (upload_image_cloudinary host file_base64 folder public_id w1).1
  = (upload_image_cloudinary host file_base64 folder public_id w2).1.
Proof.
  rewrite !upload_image_run.
  destruct (upload_payload file_base64) as [p|e0]; [|reflexivity].
  cbv zeta. destruct (uploader_upload host _ folder public_id); reflexivity.
Qed.

(** When the host rejects the upload the failure names the host's cause. *)
Lemma upload_image_host_failure host file_base64 folder public_id w p e :
  upload_payload file_base64 = Val p ->
  uploader_upload host ("data:image/png;base64," +:+ p) folder public_id
  = Exn e ->
  upload_image_cloudinary host file_base64 folder public_id w
  = (Exn (HTTPException 400 ("Image upload failed: " +:+ str_exc e)),
     log (EvUpload ("data:image/png;base64," +:+ p) folder public_id) w).
Proof.
  intros Hp He. rewrite upload_image_run, Hp. cbv zeta. rewrite He.
  reflexivity.
Qed.

(** ** create_service *)

(** C2: when a create request carries an image payload and the upload
    fails, [create_service] raises that failure, an [HTTPException] with
    status 400 whose detail names the cause; the table of services is what
    it was and no write to it was made. *)
Theorem create_service_upload_failure host service w e w1 :
  truthy_str (sc_image_base64 service) = true ->
  upload_image_cloudinary host (default "" (sc_image_base64 service))
    "services/images" None w = (Exn e, w1) ->
  create_service host service w = (Exn e, w1)
  /\ (exists cause, e = HTTPException 400 ("Image upload failed: " +:+ cause))
  /\ table w1 = table w
  /\ exists evs, calls w1 = calls w ++ evs
                 /\ Forall (fun ev => is_db_write ev = false) evs.
Proof.
  intros Himg Hup.
  destruct (upload_image_failure _ _ _ _ _ _ _ Hup) as (Hcause & Hstore & Hlog).
  split; [|split; [exact Hcause|split; [apply Hstore|]]].
  - unfold create_service. rewrite Himg.
    apply bind_exn. apply bind_exn. exact Hup.
  - destruct Hlog as [Hlog|[file Hlog]]; eexists; (split; [exact Hlog|]);
      repeat constructor.
Qed.

Lemma create_service_upload_failure_witness :
  create_service host_down create_request world0
  = (Exn (HTTPException 400 "Image upload failed: unreachable"),
     log (EvUpload "data:image/png;base64,QUJD" "services/images" None) world0)
  /\ table (log (EvUpload "data:image/png;base64,QUJD" "services/images" None)
              world0) = [].
Proof.
  destruct (create_service_upload_failure host_down create_request world0
              (HTTPException 400 "Image upload failed: unreachable")
              (log (EvUpload "data:image/png;base64,QUJD" "services/images" None)
                 world0))
    as (Hrun & _ & Htable & _).
  - reflexivity.
  - reflexivity.
  - split; [exact Hrun | exact Htable].
Defined.

(** ** update_service *)

Lemma update_remove_image_run host u db_service update_data w :
  update_remove_image host u db_service update_data w
  = match removal_target u db_service with
    | Some public_id =>
        (Val (if destroy_ok host public_id
              then <["image_url" := VNone]> update_data
              else update_data),
         log (EvDestroy public_id) w)
    | None => (Val update_data, w)
    end.
Proof.
  unfold update_remove_image, removal_target.
  destruct (truthy_bool (su_remove_image u)
            && truthy_str (str_attr db_service "image_url")); [|reflexivity].
  rewrite bind_run. unfold lift.
  destruct (extract_public_id_total
              (default "" (str_attr db_service "image_url"))) as [r ->].
  destruct r as [public_id|]; [|reflexivity].
  cbn [truthy_str from_option id].
  destruct (truthy (VStr public_id)); [|reflexivity].
  rewrite bind_run, delete_image_run.
  destruct (destroy_ok host public_id); reflexivity.
Qed.

Lemma update_upload_image_run host u update_data w :
  update_upload_image host u update_data w
  = if truthy_str (su_image_base64 u) then
      match upload_image_cloudinary host (default "" (su_image_base64 u))
              "services/images" None w with
      | (Val result, w1) =>
          (Val (<["image_url" := VStr (ud_url result)]> update_data), w1)
      | (Exn e, w1) => (Exn e, w1)
      end
    else (Val update_data, w).
Proof.
  unfold update_upload_image.
  destruct (truthy_str (su_image_base64 u)); [|reflexivity].
  rewrite bind_run.
  destruct (upload_image_cloudinary _ _ _ _ w) as [[d|e] w1]; reflexivity.
Qed.

(** [update_service] from the point where the record was found. *)
Lemma update_service_found host service_id u w db_service :
  List.find (has_id service_id) (table w) = Some db_service ->
  update_service host service_id u w
  = (update_data ← update_remove_image host u (update_loaded u db_service)
                      (update_fields u);
     update_data ← update_upload_image host u update_data;
     db_service ← db_commit_refresh service_id
                     (setattrs update_data (update_loaded u db_service));
     invalidate_services_cache;;
     mret db_service) (log (EvDbFirst service_id) w).
Proof.
  intros Hfind. unfold update_service. rewrite bind_run.
  unfold db_first. rewrite Hfind. reflexivity.
Qed.

Lemma update_service_missing host service_id u w :
  List.find (has_id service_id) (table w) = None ->
  update_service host service_id u w
  = (Exn (HTTPException 404 "Service was not found"),
     log (EvDbFirst service_id) w).
Proof.
  intros Hfind. unfold update_service. rewrite bind_run.
  unfold db_first. rewrite Hfind. reflexivity.
Qed.

(** The last two steps of every successful mutation: the commit, then the
    invalidation. *)
Lemma commit_then_invalidate service_id o w r w' :
  (db_service ← db_commit_refresh service_id o;
   invalidate_services_cache;;
   mret db_service) w = (Val r, w') ->
  r = o /\ cache w' = None
  /\ table w' = map (fun r0 => if has_id service_id r0 then persist o else r0)
                    (table w)
  /\ calls w' = calls w ++ [EvDbUpdate service_id (persist o); EvCacheInvalidate].
Proof.
  intros [= <- <-]. repeat split. simpl. rewrite <- app_assoc. reflexivity.
Qed.

Lemma lookup_su_dict_other u k :
  k <> "remove_image" -> k <> "image_base64" ->
  su_dict_exclude_none u !! k = exclude_none (su_fields u) !! k.
Proof.
  intros H1 H2. unfold su_dict_exclude_none, with_field.
  destruct (su_remove_image u), (su_image_base64 u); simpl;
    rewrite ?lookup_insert_ne by congruence; reflexivity.
Qed.

Lemma lookup_exclude_none_absent d k :
  attr d k = VNone -> exclude_none d !! k = None.
Proof.
  unfold attr, exclude_none. intros H.
  apply map_lookup_filter_None. destruct (d !! k) as [v|] eqn:Hk; [|auto].
  right. intros v' [= <-]. simpl in *. subst v. discriminate.
Qed.

Lemma lookup_update_fields_absent u k :
  k <> "remove_image" -> k <> "image_base64" ->
  attr (su_fields u) k = VNone -> update_fields u !! k = None.
Proof.
  intros H1 H2 H. unfold update_fields.
  rewrite !lookup_delete_ne by congruence.
  rewrite lookup_su_dict_other by assumption.
  apply lookup_exclude_none_absent, H.
Qed.

Lemma attr_update_loaded_absent u db_service k :
  k <> "remove_image" -> k <> "image_base64" ->
  attr (su_fields u) k = VNone ->
  attr (update_loaded u db_service) k = attr db_service k.
Proof.
  intros H1 H2 H. unfold attr, update_loaded, setattrs.
  rewrite lookup_union_r; [reflexivity|].
  rewrite lookup_su_dict_other by assumption.
  apply lookup_exclude_none_absent, H.
Qed.

Lemma attr_persist_column o k :
  k ∈ service_columns -> attr (persist o) k = attr o k.
Proof.
  intros Hk. unfold attr, persist.
  destruct (o !! k) as [v|] eqn:Ho.
  - erewrite (proj2 (map_lookup_filter_Some _ o k v)); [reflexivity|].
    split; [exact Ho | exact Hk].
  - rewrite (proj2 (map_lookup_filter_None _ o k)); [reflexivity|]. auto.
Qed.

Lemma image_url_is_column : "image_url" ∈ service_columns.
Proof. unfold service_columns. set_solver. Qed.

(** The blob the remove-image step goes after when the request carries
    no [image_url] of its own: the one the stored reference resolves to. *)
Lemma removal_target_stored u db_service url blob :
  truthy_bool (su_remove_image u) = true ->
  attr (su_fields u) "image_url" = VNone ->
  attr db_service "image_url" = VStr url ->
  url <> "" ->
  extract_public_id url = Val (Some blob) ->
  blob <> "" ->
  removal_target u (update_loaded u db_service) = Some blob.
Proof.
  intros Hflag Hfields Himg Hurl Hid Hblob.
  unfold removal_target, str_attr.
  rewrite attr_update_loaded_absent by (assumption || discriminate).
  rewrite Himg, Hflag. cbn [truthy_str from_option id andb truthy].
  apply String.eqb_neq in Hurl, Hblob. rewrite Hurl, Hid, Hblob. reflexivity.
Qed.

Lemma removal_target_unset u db_service :
  truthy_bool (su_remove_image u) = false ->
  removal_target u db_service = None.
Proof. intros Hflag. unfold removal_target. rewrite Hflag. reflexivity. Qed.




(** C6, as amended: an update with [remove_image] set, on a record with an
    image reference, that carries no new image payload and no [image_url]
    of its own: if the host does not confirm the removal of the blob, the
    update still succeeds, and the image reference of the record it returns
    and of the row it writes is the one the record had before. *)
Theorem update_service_failed_removal_keeps_image
    host service_id u w db_service url :
  List.find (has_id service_id) (table w) = Some db_service ->
  truthy_bool (su_remove_image u) = true ->
  attr db_service "image_url" = VStr url ->
  url <> "" ->
  attr (su_fields u) "image_url" = VNone ->
  truthy_str (su_image_base64 u) = false ->
  (forall public_id, extract_public_id url = Val (Some public_id) ->
                     destroy_ok host public_id = false) ->
  exists r w',
    update_service host service_id u w = (Val r, w')
    /\ attr r "image_url" = VStr url
    /\ attr (persist r) "image_url" = VStr url
    /\ table w' = map (fun r0 => if has_id service_id r0 then persist r else r0)
                      (table w)
    /\ cache w' = None.
Proof.
  intros Hfind Hflag Himg Hurl Hfields Hpayload Hfail.
  assert (Hloaded : attr (update_loaded u db_service) "image_url" = VStr url).
  { rewrite attr_update_loaded_absent by (assumption || discriminate).
    exact Himg. }
  assert (Hkeep : forall w0, update_remove_image host u
                               (update_loaded u db_service) (update_fields u) w0
                             = (Val (update_fields u),
                                match removal_target u (update_loaded u db_service)
                                with
                                | Some public_id => log (EvDestroy public_id) w0
                                | None => w0
                                end)).
  { intros w0. rewrite update_remove_image_run.
    unfold removal_target, str_attr. rewrite Hloaded, Hflag.
    cbn [truthy_str from_option id andb].
    destruct (truthy (VStr url)); [|reflexivity].
    destruct (extract_public_id url) as [[public_id|]|e] eqn:Hid;
      try reflexivity.
    destruct (truthy (VStr public_id)); [|reflexivity].
    rewrite (Hfail public_id eq_refl). reflexivity. }
  rewrite (update_service_found _ _ _ _ _ Hfind).
  rewrite bind_run, Hkeep, bind_run, update_upload_image_run, Hpayload.
  eexists _, _. split; [reflexivity|].
  assert (Hr : attr (setattrs (update_fields u) (update_loaded u db_service))
                 "image_url" = VStr url).
  { unfold attr at 1, setattrs. rewrite lookup_union_r.
    - exact Hloaded.
    - apply lookup_update_fields_absent; (assumption || discriminate). }
  split; [exact Hr|]. split.
  - rewrite attr_persist_column by apply image_url_is_column. exact Hr.
  - split; [|reflexivity]. simpl.
    destruct (removal_target u (update_loaded u db_service)); reflexivity.
Qed.

Lemma update_service_failed_removal_keeps_image_witness :
  exists r w',
    update_service host_keep 1 remove_request world1 = (Val r, w')
    /\ attr r "image_url" = VStr abc_url.
Proof.
  destruct (update_service_failed_removal_keeps_image host_keep 1 remove_request
              world1 haircut abc_url)
    as (r & w' & Hrun & Hattr & _).
  - reflexivity.
  - reflexivity.
  - reflexivity.
  - discriminate.
  - reflexivity.
  - reflexivity.
  - intros public_id _. reflexivity.
  - exists r, w'. split; [exact Hrun | exact Hattr].
Defined.

(** C6, as stated, fails: with a new image payload in the same request the
    removal may fail and the image reference still changes, to the URL of
    the upload. *)
Lemma update_service_failed_removal_then_upload :
  truthy_bool (su_remove_image replace_request) = true
  /\ attr haircut "image_url" = VStr abc_url
  /\ destroy_ok host_keep "services/images/abc" = false
  /\ nth_error (calls (update_service host_keep 1 replace_request world1).2) 1
     = Some (EvDestroy "services/images/abc")
  /\ (fun r => attr r "image_url")
       <$> returned (update_service host_keep 1 replace_request world1)
     = Some (VStr "https://res.cloudinary.com/demo/image/upload/v9/services/images/new.png")
  /\ VStr "https://res.cloudinary.com/demo/image/upload/v9/services/images/new.png"
     <> VStr abc_url.
Proof. repeat split; try (vm_compute; reflexivity). discriminate. Qed.

(** ** delete_service *)

Lemma delete_assets_image_run host db_service w :
  delete_assets host db_service ["image_url"] [] w
  = match asset_target db_service "image_url" with
    | Some public_id =>
        (Val [("image_url", destroy_ok host public_id)],
         log (EvDestroy public_id) w)
    | None => (Val [], w)
    end.
Proof.
  unfold delete_assets, asset_target. rewrite bind_run.
  destruct (truthy_str (str_attr db_service "image_url")); [|reflexivity].
  rewrite bind_run. unfold lift.
  destruct (extract_public_id_total
              (default "" (str_attr db_service "image_url"))) as [r ->].
  destruct r as [public_id|]; [|reflexivity].
  cbn [truthy_str from_option id].
  destruct (truthy (VStr public_id)); [|reflexivity].
  rewrite bind_run, delete_image_run. reflexivity.
Qed.

(** [delete_service] on a record that exists, in full. *)
Lemma delete_service_found host service_id w db_service :
  List.find (has_id service_id) (table w) = Some db_service ->
  delete_service host service_id w
  = let target := asset_target db_service "image_url" in
    let w1 := log (EvDbFirst service_id) w in
    let w2 := match target with
              | Some public_id => log (EvDestroy public_id) w1
              | None => w1
              end in
    (Val (delete_summary (destroy_ok host <$> target)),
     log EvCacheInvalidate
       (set_cache None
          (log (EvDbDelete service_id)
             (set_table
                (List.filter (fun r => negb (has_id service_id r)) (table w2))
                w2)))).
Proof.
  intros Hfind. unfold delete_service. rewrite bind_run.
  unfold db_first. rewrite Hfind. rewrite bind_run, delete_assets_image_run.
  destruct (asset_target db_service "image_url") as [public_id|];
    [destruct (destroy_ok host public_id) eqn:Hok|];
    cbv zeta; simpl fmap; rewrite ?Hok; reflexivity.
Qed.

Lemma delete_service_missing host service_id w :
  List.find (has_id service_id) (table w) = None ->
  delete_service host service_id w
  = (Exn (HTTPException 404 "Service not found"), log (EvDbFirst service_id) w).
Proof.
  intros Hfind. unfold delete_service. rewrite bind_run.
  unfold db_first. rewrite Hfind. reflexivity.
Qed.

(** Whatever was or was not deleted, the [public_id] of the summary is
    never a blob id: it is absent or the attribute name. *)
Lemma delete_service_public_id host service_id w r w' :
  delete_service host service_id w = (Val r, w') ->
  public_id r = None \/ public_id r = Some "image_url".
Proof.
  destruct (List.find (has_id service_id) (table w)) as [db_service|] eqn:Hfind.
  - rewrite (delete_service_found _ _ _ _ Hfind). cbv zeta.
    intros [= <- _].
    destruct (asset_target db_service "image_url") as [public_id|]; simpl;
      [destruct (destroy_ok host public_id)|]; auto.
  - rewrite (delete_service_missing _ _ _ Hfind). discriminate.
Qed.

(** The handler that deletes an image by id answers with the blob id it
    removed. *)
Lemma delete_cloudinary_image_returns_blob_id :
  returned (delete_cloudinary_image host_ok "services/images/abc" world0)
  = Some {| success := true;
            message := "Image services/images/abc deleted successfully";
            public_id := Some "services/images/abc" |}.
Proof. reflexivity. Qed.

(** C7: deleting the service [haircut], whose image has the blob id
    ["services/images/abc"].  The host is asked to remove that blob, and
    the summary carries the attribute name ["image_url"] as [public_id],
    both when the host confirms the removal and when it does not. *)
Theorem delete_service_public_id_is_attribute_name :
  asset_target haircut "image_url" = Some "services/images/abc"
  /\ returned (delete_service host_ok 1 world1)
     = Some {| success := true;
               message := "Service deleted successfully. " +:+
                          "Deleted 1 associated assets: image";
               public_id := Some "image_url" |}
  /\ nth_error (calls (delete_service host_ok 1 world1).2) 1
     = Some (EvDestroy "services/images/abc")
  /\ returned (delete_service host_keep 1 world1)
     = Some {| success := true;
               message := "Service deleted successfully. " +:+
                          "Deleted 0 associated assets: none";
               public_id := Some "image_url" |}.
Proof.
  assert (Hfind : List.find (has_id 1) (table world1) = Some haircut)
    by reflexivity.
  assert (Htarget : asset_target haircut "image_url" = Some "services/images/abc")
    by reflexivity.
  rewrite !(delete_service_found _ _ _ _ Hfind), Htarget.
  repeat split.
Qed.

(** ** Cache invalidation *)

(** C1: each of [create_service], [update_service] and [delete_service],
    when it returns a result, has called [invalidate_services_cache] as its
    last call, right after its write to the table, and leaves the cache
    invalid. *)
Theorem mutations_invalidate_cache host :
  (forall service w r w',
      create_service host service w = (Val r, w') ->
      cache w' = None
      /\ exists pre, calls w' = pre ++ [EvDbInsert r; EvCacheInvalidate])
  /\ (forall service_id u w r w',
         update_service host service_id u w = (Val r, w') ->
         cache w' = None
         /\ exists pre, calls w' = pre ++ [EvDbUpdate service_id (persist r);
                                            EvCacheInvalidate])
  /\ (forall service_id w r w',
         delete_service host service_id w = (Val r, w') ->
         cache w' = None
         /\ exists pre, calls w' = pre ++ [EvDbDelete service_id;
                                            EvCacheInvalidate]).
Proof.
  split; [|split].
  - intros service w r w' Hrun. unfold create_service in Hrun.
    apply bind_val in Hrun as (service_data & w1 & _ & Hrun).
    injection Hrun as <- <-. split; [reflexivity|].
    exists (calls w1). simpl. rewrite <- app_assoc. reflexivity.
  - intros service_id u w r w' Hrun.
    destruct (List.find (has_id service_id) (table w)) as [db_service|] eqn:Hfind.
    + rewrite (update_service_found _ _ _ _ _ Hfind) in Hrun.
      apply bind_val in Hrun as (ud1 & w1 & _ & Hrun).
      apply bind_val in Hrun as (ud2 & w2 & _ & Hrun).
      apply commit_then_invalidate in Hrun as (-> & Hcache & _ & Hcalls).
      split; [exact Hcache|]. exists (calls w2). exact Hcalls.
    + rewrite (update_service_missing _ _ _ _ Hfind) in Hrun. discriminate.
  - intros service_id w r w' Hrun.
    destruct (List.find (has_id service_id) (table w)) as [db_service|] eqn:Hfind.
    + rewrite (delete_service_found _ _ _ _ Hfind) in Hrun. cbv zeta in Hrun.
      injection Hrun as _ <-. split; [reflexivity|].
      eexists. simpl. rewrite <- app_assoc. reflexivity.
    + rewrite (delete_service_missing _ _ _ Hfind) in Hrun. discriminate.
Qed.

Lemma mutations_invalidate_cache_witness :
  cache created.2 = None /\ cache replaced.2 = None /\ cache removed.2 = None.
Proof.
  destruct (mutations_invalidate_cache host_ok) as (Hcreate & Hupdate & Hdelete).
  destruct (returned created) as [r1|] eqn:H1; [|discriminate].
  destruct (returned replaced) as [r2|] eqn:H2; [|discriminate].
  destruct (returned removed) as [r3|] eqn:H3; [|discriminate].
  split; [|split].
  - apply (Hcreate create_request world0 r1 created.2).
    vm_compute in H1. injection H1 as <-. reflexivity.
  - apply (Hupdate 1 replace_request world1 r2 replaced.2).
    vm_compute in H2. injection H2 as <-. reflexivity.
  - apply (Hdelete 1 world1 r3 removed.2).
    vm_compute in H3. injection H3 as <-. reflexivity.
Defined.

(** ** read_services *)

Lemma clamp_limit limit : (if limit >? 100 then 100 else limit) = Z.min limit 100.
Proof. destruct (Z.gtb_spec limit 100); lia. Qed.

Lemma clamp_skip skip : (if skip <? 0 then 0 else skip) = Z.max skip 0.
Proof. destruct (Z.ltb_spec skip 0); lia. Qed.

(** [read_services_page] in full. *)
Lemma read_services_page_run page skip limit w :
  read_services_page page skip limit w
  = match cache w with
    | Some (service :: cached) =>
        (Val (Py.slice (service :: cached) skip (skip + limit)),
         log EvCacheGet w)
    | _ =>
        let w1 := log (EvDbPage skip limit) (log EvCacheGet w) in
        match page (table w) skip limit with
        | [] => (Exn (HTTPException 404 "No Services Found"), w1)
        | results =>
            (Val (serialize <$> results),
             log (EvCachePopulate (serialize <$> results))
               (set_cache (Some (serialize <$> results)) w1))
        end
    end.
Proof.
  unfold read_services_page. rewrite bind_run. unfold get_cached_service.
  destruct (cache w) as [[|service cached]|]; unfold truthy_cached; cbv iota;
    try reflexivity;
    rewrite bind_run; unfold db_page;
    change (table (log EvCacheGet w)) with (table w);
    destruct (page (table w) skip limit); reflexivity.
Qed.

(** [read_services] in full, with the offset and limit it settles on. *)
Lemma read_services_run page skip limit w :
  read_services page skip limit w
  = let offset := Z.max skip 0 in
    let limit' := Z.min limit 100 in
    match cache w with
    | Some (service :: cached) =>
        (Val (Py.slice (service :: cached) offset (offset + limit')),
         log EvCacheGet w)
    | _ =>
        let w1 := log (EvDbPage offset limit') (log EvCacheGet w) in
        match page (table w) offset limit' with
        | [] => (Exn (HTTPException 404 "No Services Found"), w1)
        | results =>
            (Val (serialize <$> results),
             log (EvCachePopulate (serialize <$> results))
               (set_cache (Some (serialize <$> results)) w1))
        end
    end.
Proof.
  unfold read_services. rewrite clamp_limit, clamp_skip.
  apply read_services_page_run.
Qed.

(** C8: [read_services] works with the offset [max(skip, 0)] and the limit
    [min(limit, 100)]: these are the values it slices the cached list with
    on a hit and queries the table with on a miss. *)
Theorem read_services_clamps page skip limit w :
  read_services page skip limit w
  = let offset := Z.max skip 0 in
    let limit' := Z.min limit 100 in
    match cache w with
    | Some (service :: cached) =>
        (Val (Py.slice (service :: cached) offset (offset + limit')),
         log EvCacheGet w)
    | _ =>
        let w1 := log (EvDbPage offset limit') (log EvCacheGet w) in
        match page (table w) offset limit' with
        | [] => (Exn (HTTPException 404 "No Services Found"), w1)
        | results =>
            (Val (serialize <$> results),
             log (EvCachePopulate (serialize <$> results))
               (set_cache (Some (serialize <$> results)) w1))
        end
    end.
Proof.
  unfold read_services. rewrite clamp_limit, clamp_skip.
  apply read_services_page_run.
Qed.

(** C9: on a cache miss, an empty page from the table makes
    [read_services] raise the 404 "No Services Found"; an empty table is
    one such case, whatever the offset and limit.  The table and the cache
    stay as they were. *)
Theorem read_services_empty_page_not_found page skip limit w :
  truthy_cached (cache w) = false ->
  page (table w) (Z.max skip 0) (Z.min limit 100) = [] ->
  exists w',
    read_services page skip limit w
    = (Exn (HTTPException 404 "No Services Found"), w')
    /\ table w' = table w /\ cache w' = cache w
    /\ calls w' = calls w ++ [EvCacheGet;
                              EvDbPage (Z.max skip 0) (Z.min limit 100)].
Proof.
  intros Hmiss Hpage.
  exists (log (EvDbPage (Z.max skip 0) (Z.min limit 100)) (log EvCacheGet w)).
  split.
  - rewrite read_services_run. cbv zeta. rewrite Hpage.
    destruct (cache w) as [[|service cached]|]; try discriminate; reflexivity.
  - split; [reflexivity|]. split; [reflexivity|].
    unfold log; cbn [calls]. rewrite <- app_assoc. reflexivity.
Qed.

Lemma read_services_empty_page_not_found_witness :
  exists w',
    read_services sql_page 0 100 world0
    = (Exn (HTTPException 404 "No Services Found"), w')
    /\ table w' = [].
Proof.
  destruct (read_services_empty_page_not_found sql_page 0 100 world0)
    as (w' & Hrun & Htable & _).
  - reflexivity.
  - reflexivity.
  - exists w'. split; [exact Hrun | exact Htable].
Defined.

Lemma slice_past_end {A} (l : list A) start stop :
  Z.of_nat (length l) <= start -> Py.slice l start stop = [].
Proof.
  intros Hlen. unfold Py.slice, Py.adjust.
  destruct (Z.ltb_spec start 0) as [Hneg|_]; [lia|].
  rewrite (Z.min_r start) by lia. rewrite Nat2Z.id.
  rewrite skipn_all. apply firstn_nil.
Qed.

(** With bounds that are not negative a slice is the usual window. *)
Lemma slice_window {A} (l : list A) start len :
  0 <= start -> 0 <= len ->
  Py.slice l start (start + len)
  = firstn (Z.to_nat len) (skipn (Z.to_nat start) l).
Proof.
  intros Hstart Hlen. unfold Py.slice, Py.adjust.
  destruct (Z.ltb_spec start 0) as [Hneg|_]; [lia|].
  destruct (Z.ltb_spec (start + len) 0) as [Hneg|_]; [lia|].
  remember (Z.of_nat (length l)) as n eqn:Hn.
  destruct (Z.le_gt_cases n start) as [Hout|Hin].
  - rewrite !(skipn_all2 l) by lia. rewrite !firstn_nil. reflexivity.
  - rewrite (Z.min_l start n) by lia.
    destruct (Z.le_gt_cases (start + len) n) as [Hfit|Hover].
    + rewrite Z.min_l by lia. f_equal. lia.
    + rewrite Z.min_r by lia.
      rewrite !firstn_all2; [reflexivity| |]; rewrite length_skipn; lia.
Qed.

(** C10: when the cache holds a non-empty list, [read_services] returns,
    without raising, the slice [offset : offset + limit] of that list for
    the clamped offset and limit, and touches neither table nor cache.
    That slice is empty once the offset reaches the length of the list, and
    for a limit that is not negative it is the window of [limit] entries
    from [offset] on. *)
Theorem read_services_hit_slices page skip limit w cached :
  cache w = Some cached ->
  cached <> [] ->
  read_services page skip limit w
  = (Val (Py.slice cached (Z.max skip 0) (Z.max skip 0 + Z.min limit 100)),
     log EvCacheGet w)
  /\ (Z.of_nat (length cached) <= Z.max skip 0 ->
      returned (read_services page skip limit w) = Some [])
  /\ (0 <= limit ->
      returned (read_services page skip limit w)
      = Some (firstn (Z.to_nat (Z.min limit 100))
                (skipn (Z.to_nat (Z.max skip 0)) cached))).
Proof.
  intros Hcache Hne.
  assert (Hrun : read_services page skip limit w
                 = (Val (Py.slice cached (Z.max skip 0)
                           (Z.max skip 0 + Z.min limit 100)),
                    log EvCacheGet w)).
  { rewrite read_services_run, Hcache. cbv zeta.
    destruct cached as [|service cached]; [contradiction | reflexivity]. }
  split; [exact Hrun|]. rewrite Hrun. unfold returned. cbn [fst].
  split; intros H.
  - rewrite slice_past_end by exact H. reflexivity.
  - rewrite slice_window by lia. reflexivity.
Qed.

Lemma read_services_hit_slices_witness :
  read_services sql_page 5 10 world_cached = (Val [], log EvCacheGet world_cached)
  /\ returned (read_services sql_page 0 10 world_cached)
     = Some [serialize haircut].
Proof.
  destruct (read_services_hit_slices sql_page 5 10 world_cached
              [serialize haircut] eq_refl) as (Hrun & _ & _);
    [discriminate|].
  destruct (read_services_hit_slices sql_page 0 10 world_cached
              [serialize haircut] eq_refl) as (_ & _ & Hwin);
    [discriminate|].
  split.
  - rewrite Hrun. reflexivity.
  - rewrite Hwin by lia. reflexivity.
Defined.

(** * Further properties of the helpers and handlers *)

(** ** Splitting strings *)

Lemma prefix_empty s : String.prefix "" s = true.
Proof. destruct s; reflexivity. Qed.

Lemma contains_char_cons c a s :
  Py.contains (String c "") (String a s)
  = Ascii.eqb a c || Py.contains (String c "") s.
Proof.
  simpl. destruct (ascii_dec c a) as [->|Hne].
  - rewrite prefix_empty, Ascii.eqb_refl. reflexivity.
  - assert (Ascii.eqb a c = false) as -> by (apply Ascii.eqb_neq; congruence).
    reflexivity.
Qed.

(** The first piece of a split holds no separator. *)
Lemma split_head_no_sep sep s r :
  Py.getitem (Py.split sep s) 0%nat = Val r ->
  Py.contains (String sep "") r = false.
Proof.
  revert r. induction s as [|a s IH]; intros r; simpl.
  - intros [= <-]. reflexivity.
  - destruct (Ascii.eqb a sep) eqn:Ha.
    + intros [= <-]. reflexivity.
    + destruct (Py.split sep s) as [|w ws] eqn:Hs.
      * intros [= <-]. rewrite contains_char_cons, Ha. reflexivity.
      * intros [= <-]. rewrite contains_char_cons, Ha. simpl.
        apply IH. reflexivity.
Qed.

(** The first piece of a split is the input up to its first separator. *)
Lemma split_head_cut sep s r :
  Py.getitem (Py.split sep s) 0%nat = Val r ->
  s = r \/ exists rest, s = r +:+ String sep rest.
Proof.
  revert r. induction s as [|a s IH]; intros r; simpl.
  - intros [= <-]. left. reflexivity.
  - destruct (Ascii.eqb_spec a sep) as [->|Ha].
    + intros [= <-]. right. exists s. reflexivity.
    + destruct (Py.split sep s) as [|w ws] eqn:Hs.
      * exfalso. exact (split_nonempty sep s Hs).
      * intros [= <-]. destruct (IH w eq_refl) as [->|[rest ->]].
        -- left. reflexivity.
        -- right. exists rest. reflexivity.
Qed.

(** Without a separator there is nothing to split. *)
Lemma split_no_sep sep s :
  Py.contains (String sep "") s = false -> Py.split sep s = [s].
Proof.
  induction s as [|a s IH]; [reflexivity|].
  rewrite contains_char_cons. intros H.
  apply orb_false_iff in H as [Ha Hs]. simpl. rewrite Ha, (IH Hs). reflexivity.
Qed.

Lemma split_once_cons sep a s :
  Py.split_once sep (String a s)
  = if Ascii.eqb a sep then [""; s]
    else match Py.split_once sep s with
         | [] => [String a ""]
         | w :: ws => String a w :: ws
         end.
Proof. reflexivity. Qed.

Lemma split_once_no_sep sep s :
  Py.contains (String sep "") s = false -> Py.split_once sep s = [s].
Proof.
  induction s as [|a s IH]; [reflexivity|].
  rewrite contains_char_cons. intros H.
  apply orb_false_iff in H as [Ha Hs]. simpl. rewrite Ha, (IH Hs). reflexivity.
Qed.

Lemma split_once_cut sep s1 s2 :
  Py.contains (String sep "") s1 = false ->
  Py.split_once sep (s1 +:+ String sep s2) = [s1; s2].
Proof.
  induction s1 as [|a s1 IH]; intros H.
  - simpl. rewrite Ascii.eqb_refl. reflexivity.
  - rewrite contains_char_cons in H. apply orb_false_iff in H as [Ha Hs].
    change (String a s1 +:+ String sep s2)
      with (String a (s1 +:+ String sep s2)).
    rewrite split_once_cons, Ha, (IH Hs). reflexivity.
Qed.

Lemma prefix_cons a p b s :
  String.prefix (String a p) (String b s) = true ->
  a = b /\ String.prefix p s = true.
Proof. simpl. destruct (ascii_dec a b); [auto | discriminate]. Qed.

(** A string without a dot cannot hold the host marker. *)
Lemma no_dot_no_marker s :
  Py.contains "." s = false -> Py.contains "res.cloudinary.com" s = false.
Proof.
  induction s as [|a s IH]; [reflexivity|].
  intros H. pose proof H as H0.
  rewrite contains_char_cons in H0. apply orb_false_iff in H0 as [_ Hs].
  change (Py.contains "res.cloudinary.com" (String a s))
    with (String.prefix "res.cloudinary.com" (String a s)
          || Py.contains "res.cloudinary.com" s).
  rewrite (IH Hs), orb_false_r.
  destruct (String.prefix "res.cloudinary.com" (String a s)) eqn:Hp;
    [|reflexivity].
  exfalso. clear IH Hs.
  apply prefix_cons in Hp as [<- Hp].
  do 3 (destruct s as [|c s]; [discriminate Hp|];
        apply prefix_cons in Hp as [<- Hp]).
  rewrite !contains_char_cons in H. discriminate H.
Qed.

(** ** More on [extract_public_id] *)

Lemma index_from_absent x l i :
  Forall (fun y => y <> x) l ->
  Py.index_from x l i = Exn (ValueError ("'" +:+ x +:+ "' is not in list")).
Proof.
  intros Hl. revert i. induction Hl as [|y l Hy _ IH]; intros i; simpl.
  - reflexivity.
  - apply String.eqb_neq in Hy. rewrite Hy. apply IH.
Qed.

Lemma extract_public_id_try_after_upload url pre seg rest :
  Py.split "/" url = pre ++ "upload" :: seg :: rest ->
  Forall (fun y => y <> "upload") pre ->
  extract_public_id_try url
  = exc_bind
      (Py.getitem
         (Py.split "." (Py.join "/" (if Py.startswith "v" seg then rest
                                     else seg :: rest))) 0%nat)
      (fun r => Val (Some r)).
Proof.
  intros Hsplit Hpre. unfold extract_public_id_try. rewrite Hsplit.
  unfold Py.index. rewrite index_from_app by assumption.
  unfold Py.slice_from, exc_bind at 1.
  replace (0 + length pre + 1)%nat with (length pre + 1)%nat by lia.
  rewrite skipn_app, skipn_all2 by lia.
  replace (length pre + 1 - length pre)%nat with 1%nat by lia.
  cbn [skipn app Py.getitem nth_error exc_bind].
  destruct (Py.startswith "v" seg); rewrite ?drop_0; reflexivity.
Qed.

Lemma extract_public_id_result_no_dot url r :
  extract_public_id url = Val (Some r) -> Py.contains "." r = false.
Proof.
  unfold extract_public_id.
  destruct (negb (truthy (VStr url))); [discriminate|].
  destruct (negb (Py.contains "res.cloudinary.com" url)).
  - destruct (Py.getitem (Py.split "." url) 0%nat) as [r0|e] eqn:Hr;
      [|discriminate].
    intros [= <-]. exact (split_head_no_sep _ _ _ Hr).
  - unfold try_except, extract_public_id_try.
    destruct (Py.index "upload" (Py.split "/" url)) as [i|e]; [|discriminate].
    cbn [exc_bind].
    destruct (Py.getitem (Py.slice_from (Py.split "/" url) (i + 1)) 0%nat)
      as [seg|e]; [|discriminate].
    cbn [exc_bind].
    match goal with
    | |- context [Py.getitem (Py.split "." ?p) 0%nat] =>
        destruct (Py.getitem (Py.split "." p) 0%nat) as [r0|e] eqn:Hr
    end; [|discriminate].
    intros [= <-]. exact (split_head_no_sep _ _ _ Hr).
Qed.

(** The id [extract_public_id] returns never holds a dot, and a non-empty
    id it returned comes back unchanged when passed through it again. *)
Theorem extract_public_id_dotless_idempotent url r :
  extract_public_id url = Val (Some r) ->
  Py.contains "." r = false
  /\ (r <> "" -> extract_public_id r = Val (Some r)).
Proof.
  intros Hr. pose proof (extract_public_id_result_no_dot _ _ Hr) as Hdot.
  split; [exact Hdot|]. intros Hne.
  unfold extract_public_id. simpl truthy.
  apply String.eqb_neq in Hne. rewrite Hne.
  rewrite (no_dot_no_marker _ Hdot). simpl negb. cbv iota.
  rewrite (split_no_sep "." r Hdot). reflexivity.
Qed.

Lemma extract_public_id_dotless_idempotent_witness :
  Py.contains "." "services/images/abc" = false
  /\ extract_public_id "services/images/abc" = Val (Some "services/images/abc").
Proof.
  destruct (extract_public_id_dotless_idempotent abc_url "services/images/abc")
    as (Hdot & Hagain).
  - reflexivity.
  - split; [exact Hdot|]. apply Hagain. discriminate.
Defined.

(** An input without the host marker is cut at its first dot: what comes
    back holds no dot and is the whole input or is followed by a dot in
    it, so ["a.b.png"] gives ["a"]. *)
Theorem extract_public_id_bare_cut url :
  url <> "" ->
  Py.contains "res.cloudinary.com" url = false ->
  exists r,
    extract_public_id url = Val (Some r)
    /\ Py.contains "." r = false
    /\ (url = r \/ exists rest, url = r +:+ "." +:+ rest).
Proof.
  intros Hne Hin.
  destruct (extract_public_id_bare url Hne Hin) as (r & Hr & Hhead).
  exists r. split; [exact Hr|]. split.
  - exact (split_head_no_sep _ _ _ Hhead).
  - exact (split_head_cut _ _ _ Hhead).
Qed.

Lemma extract_public_id_bare_cut_witness :
  exists r,
    extract_public_id "a.b.png" = Val (Some r)
    /\ Py.contains "." r = false
    /\ ("a.b.png" = r \/ exists rest, "a.b.png" = r +:+ "." +:+ rest).
Proof.
  apply (extract_public_id_bare_cut "a.b.png"); [discriminate | reflexivity].
Defined.

(** On a URL with the host marker, what follows the first [upload] segment
    is the id, cut at its first dot; the segment right after [upload] is
    dropped whenever it starts with [v], be it a version or a folder. *)
Theorem extract_public_id_after_upload url pre seg rest :
  url <> "" ->
  Py.contains "res.cloudinary.com" url = true ->
  Py.split "/" url = pre ++ "upload" :: seg :: rest ->
  Forall (fun y => y <> "upload") pre ->
  let path := Py.join "/" (if Py.startswith "v" seg then rest
                           else seg :: rest) in
  exists r,
    extract_public_id url = Val (Some r)
    /\ Py.contains "." r = false
    /\ (path = r \/ exists ext, path = r +:+ "." +:+ ext).
Proof.
  intros Hne Hin Hsplit Hpre path.
  destruct (getitem_split_head "." path) as [r Hr].
  exists r. split; [|split].
  - unfold extract_public_id. simpl truthy.
    apply String.eqb_neq in Hne. rewrite Hne, Hin. simpl negb. cbv iota.
    rewrite (extract_public_id_try_after_upload _ _ _ _ Hsplit Hpre).
    fold path. rewrite Hr. reflexivity.
  - exact (split_head_no_sep _ _ _ Hr).
  - exact (split_head_cut _ _ _ Hr).
Qed.

Lemma extract_public_id_after_upload_witness :
  exists r,
    extract_public_id
      "https://res.cloudinary.com/demo/image/upload/videos/intro/clip.mp4"
    = Val (Some r)
    /\ Py.contains "." r = false
    /\ ("intro/clip.mp4" = r \/ exists ext, "intro/clip.mp4" = r +:+ "." +:+ ext).
Proof.
  apply (extract_public_id_after_upload
           "https://res.cloudinary.com/demo/image/upload/videos/intro/clip.mp4"
           ["https:"; ""; "res.cloudinary.com"; "demo"; "image"]
           "videos" ["intro"; "clip.mp4"]).
  - discriminate.
  - reflexivity.
  - reflexivity.
  - repeat constructor; discriminate.
Defined.

(** A URL with the host marker and no [upload] segment, or with nothing
    after it, gives [None]: the error raised inside is swallowed. *)
Theorem extract_public_id_without_path url :
  url <> "" ->
  Py.contains "res.cloudinary.com" url = true ->
  (Forall (fun y => y <> "upload") (Py.split "/" url)
   \/ exists pre, Py.split "/" url = pre ++ ["upload"]
                  /\ Forall (fun y => y <> "upload") pre) ->
  extract_public_id url = Val None.
Proof.
  intros Hne Hin Hshape. unfold extract_public_id. simpl truthy.
  apply String.eqb_neq in Hne. rewrite Hne, Hin. simpl negb. cbv iota.
  unfold extract_public_id_try, Py.index.
  destruct Hshape as [Habsent|(pre & Hsplit & Hpre)].
  - rewrite index_from_absent by assumption. reflexivity.
  - rewrite Hsplit, index_from_app by assumption. cbn [exc_bind].
    unfold Py.slice_from. rewrite skipn_all2; [reflexivity|].
    rewrite length_app. simpl. lia.
Qed.

Lemma extract_public_id_without_path_witness :
  extract_public_id "https://res.cloudinary.com/demo/image/upload" = Val None.
Proof.
  apply extract_public_id_without_path.
  - discriminate.
  - reflexivity.
  - right. exists ["https:"; ""; "res.cloudinary.com"; "demo"; "image"].
    split; [reflexivity|]. repeat constructor; discriminate.
Defined.

(** ** More on the media helpers *)

Lemma upload_payload_data_url mime payload :
  Py.contains "," mime = false ->
  upload_payload ("data:" +:+ mime +:+ "," +:+ payload) = Val payload.
Proof.
  intros Hmime. unfold upload_payload.
  change (Py.startswith "data:" ("data:" +:+ mime +:+ "," +:+ payload))
    with (String.prefix "" (mime +:+ "," +:+ payload)).
  rewrite prefix_empty.
  change ("data:" +:+ mime +:+ "," +:+ payload)
    with (("data:" +:+ mime) +:+ String "," payload).
  rewrite split_once_cut; [reflexivity|].
  change ("data:" +:+ mime)
    with (String "d" (String "a" (String "t" (String "a" (String ":" mime))))).
  rewrite !contains_char_cons. exact Hmime.
Qed.

(** What [upload_image_cloudinary] sends: the payload behind a fixed PNG
    data-URL prefix, where a data-URL prefix of the input, up to its first
    comma, is cut off first and any other input is taken whole. *)
Theorem upload_image_sends_payload host folder public_id w :
  (forall mime payload,
      Py.contains "," mime = false ->
      calls (upload_image_cloudinary host ("data:" +:+ mime +:+ "," +:+ payload)
               folder public_id w).2
      = calls w ++ [EvUpload ("data:image/png;base64," +:+ payload)
                      folder public_id])
  /\ (forall raw,
         Py.startswith "data:" raw = false ->
         calls (upload_image_cloudinary host raw folder public_id w).2
         = calls w ++ [EvUpload ("data:image/png;base64," +:+ raw)
                         folder public_id]).
Proof.
  split.
  - intros mime payload Hmime.
    rewrite upload_image_run, (upload_payload_data_url _ _ Hmime). cbv zeta.
    destruct (uploader_upload host _ folder public_id); reflexivity.
  - intros raw Hraw. rewrite upload_image_run.
    unfold upload_payload. rewrite Hraw. cbv zeta.
    destruct (uploader_upload host _ folder public_id); reflexivity.
Qed.

Lemma upload_image_sends_payload_witness :
  calls (upload_image_cloudinary host_ok "data:image/jpeg;base64,QUJD"
           "services/images" None world0).2
  = [EvUpload "data:image/png;base64,QUJD" "services/images" None]
  /\ calls (upload_image_cloudinary host_ok "QUJD" "services/images" None
              world0).2
     = [EvUpload "data:image/png;base64,QUJD" "services/images" None].
Proof.
  destruct (upload_image_sends_payload host_ok "services/images" None world0)
    as (Hdata & Hraw).
  split.
  - apply (Hdata "image/jpeg;base64" "QUJD"). reflexivity.
  - apply (Hraw "QUJD"). reflexivity.
Defined.

(** A data-URL prefix with no comma behind it fails before the host is
    called: the index error becomes the 400, and nothing is logged. *)
Theorem upload_image_malformed_data_url host file_base64 folder public_id w :
  Py.startswith "data:" file_base64 = true ->
  Py.contains "," file_base64 = false ->
  upload_image_cloudinary host file_base64 folder public_id w
  = (Exn (HTTPException 400 "Image upload failed: list index out of range"), w).
Proof.
  intros Hdata Hcomma. rewrite upload_image_run.
  unfold upload_payload. rewrite Hdata, (split_once_no_sep _ _ Hcomma).
  reflexivity.
Qed.

Lemma upload_image_malformed_data_url_witness :
  upload_image_cloudinary host_ok "data:image/png;base64" "services" None world0
  = (Exn (HTTPException 400 "Image upload failed: list index out of range"),
     world0).
Proof.
  apply upload_image_malformed_data_url; reflexivity.
Defined.

(** [upload_image_cloudinary] ends in one of two ways.  It returns the
    host's public id, secure URL and format after exactly one call the host
    accepted; or it raises an [HTTPException] with status 400 whose detail
    starts with "Image upload failed: ", after at most one call.  Table,
    key counter and cache are never touched. *)
Theorem upload_image_outcomes host file_base64 folder public_id w :
  same_store w (upload_image_cloudinary host file_base64 folder public_id w).2
  /\ match (upload_image_cloudinary host file_base64 folder public_id w).1 with
     | Val d =>
         exists sent r,
           uploader_upload host sent folder public_id = Val r
           /\ d = {| ud_public_id := ur_public_id r;
                     ud_url := ur_secure_url r;
                     ud_format := ur_format r |}
           /\ calls (upload_image_cloudinary host file_base64 folder
                       public_id w).2
              = calls w ++ [EvUpload sent folder public_id]
     | Exn e =>
         (exists cause,
             e = HTTPException 400 ("Image upload failed: " +:+ cause))
         /\ (calls (upload_image_cloudinary host file_base64 folder
                      public_id w).2 = calls w
             \/ exists sent,
                 calls (upload_image_cloudinary host file_base64 folder
                          public_id w).2
                 = calls w ++ [EvUpload sent folder public_id])
     end.
Proof.
  rewrite upload_image_run.
  destruct (upload_payload file_base64) as [p|e0].
  - cbv zeta.
    destruct (uploader_upload host _ folder public_id) as [r|e0] eqn:Hr.
    + split; [apply same_store_log|]. cbn [fst snd]. eauto.
    + split; [apply same_store_log|]. cbn [fst snd]. split; eauto.
  - split; [apply same_store_refl|]. cbn [fst snd]. split; eauto.
Qed.

(** [delete_image_from_cloudinary] never raises: it makes one removal call
    for the id and answers [True] exactly when the host answered with
    [result = "ok"]; a raising host gives [False]. *)
Theorem delete_image_swallows_failure host public_id w :
  exists b,
    delete_image_from_cloudinary host public_id w
    = (Val b, log (EvDestroy public_id) w)
    /\ (b = true <-> uploader_destroy host public_id = Val (Some "ok")).
Proof.
  exists (destroy_ok host public_id). split; [apply delete_image_run|].
  unfold destroy_ok.
  destruct (uploader_destroy host public_id) as [[r|]|e].
  - destruct (String.eqb_spec r "ok") as [->|Hne].
    + split; reflexivity.
    + split; [discriminate|]. intros [= ->]. contradiction.
  - split; discriminate.
  - split; discriminate.
Qed.

(** ** More on [create_service] and [read_service] *)

Lemma find_none_iff {A} (f : A -> bool) (l : list A) :
  List.find f l = None <-> Forall (fun x => f x = false) l.
Proof.
  induction l as [|x l IH]; simpl.
  - split; [constructor | reflexivity].
  - destruct (f x) eqn:Hx.
    + split; [discriminate|]. intros H. inversion H. congruence.
    + rewrite IH. split; [constructor; assumption | intros H; inversion H; assumption].
Qed.

Lemma find_app_fresh {A} (f : A -> bool) (l : list A) (x : A) :
  Forall (fun y => f y = false) l -> f x = true ->
  List.find f (l ++ [x]) = Some x.
Proof.
  intros Hl Hx. induction Hl as [|y l Hy _ IH]; simpl.
  - rewrite Hx. reflexivity.
  - rewrite Hy. exact IH.
Qed.

(** The insert and the invalidation that end [create_service]. *)
Lemma insert_then_invalidate o w :
  (db_service ← db_add_commit_refresh o;
   invalidate_services_cache;;
   mret db_service) w
  = (Val (<["service_id" := VInt (next_id w)]> (persist o)),
     log EvCacheInvalidate
       (set_cache None
          (log (EvDbInsert (<["service_id" := VInt (next_id w)]> (persist o)))
             {| table := table w
                         ++ [<["service_id" := VInt (next_id w)]> (persist o)];
                next_id := next_id w + 1;
                cache := cache w; calls := calls w |}))).
Proof. reflexivity. Qed.

Lemma create_service_run host service w :
  create_service host service w
  = if truthy_str (sc_image_base64 service) then
      match upload_image_cloudinary host (default "" (sc_image_base64 service))
              "services/images" None w with
      | (Val d, w1) =>
          (db_service ← db_add_commit_refresh
                          (<["image_url" := VStr (ud_url d)]>
                             (sc_fields service));
           invalidate_services_cache;;
           mret db_service) w1
      | (Exn e, w1) => (Exn e, w1)
      end
    else
      (db_service ← db_add_commit_refresh (sc_fields service);
       invalidate_services_cache;;
       mret db_service) w.
Proof.
  unfold create_service.
  destruct (truthy_str (sc_image_base64 service)); [|reflexivity].
  rewrite bind_run, bind_run.
  destruct (upload_image_cloudinary _ _ _ _ w) as [[d|e] w1]; reflexivity.
Qed.

Lemma attr_insert_eq (o : obj) k v : attr (<[k := v]> o) k = v.
Proof. unfold attr. rewrite lookup_insert_eq. reflexivity. Qed.

Lemma attr_insert_ne (o : obj) k k' v :
  k <> k' -> attr (<[k := v]> o) k' = attr o k'.
Proof. intros H. unfold attr. rewrite lookup_insert_ne by exact H. reflexivity. Qed.

(** Without an image payload, absent or empty, a [create_service] that
    returns has made no call to the media host: all it did is the insert
    and the invalidation.  The row it returns is the one appended to the
    table, under the key the store handed out and with the [image_url] the
    request itself carried. *)
Theorem create_service_without_image host service w r w' :
  truthy_str (sc_image_base64 service) = false ->
  create_service host service w = (Val r, w') ->
  calls w' = calls w ++ [EvDbInsert r; EvCacheInvalidate]
  /\ table w' = table w ++ [r]
  /\ attr r "service_id" = VInt (next_id w)
  /\ attr r "image_url" = attr (sc_fields service) "image_url".
Proof.
  intros Himg. rewrite create_service_run, Himg, insert_then_invalidate.
  intros [= <- <-]. split; [|split; [|split]].
  - unfold log, set_cache; cbn [calls]. rewrite <- app_assoc. reflexivity.
  - reflexivity.
  - apply attr_insert_eq.
  - rewrite attr_insert_ne by discriminate.
    apply attr_persist_column, image_url_is_column.
Qed.

Lemma create_service_without_image_witness :
  exists r w',
    create_service host_down plain_request world0 = (Val r, w')
    /\ calls w' = [EvDbInsert r; EvCacheInvalidate]
    /\ attr r "image_url" = VNone.
Proof.
  destruct (create_service host_down plain_request world0) as [[r|e] w'] eqn:Hrun;
    [|discriminate].
  destruct (create_service_without_image host_down plain_request world0 r w'
              eq_refl Hrun) as (Hcalls & _ & _ & Hattr).
  exists r, w'. split; [reflexivity|]. split; [exact Hcalls | exact Hattr].
Defined.

(** With an image payload, a [create_service] that returns has uploaded
    that payload, behind the fixed prefix and with a data-URL prefix of its
    own cut off, to the folder [services/images] before the insert, and
    has stored the host's secure URL as the record's [image_url], whatever
    [image_url] the request carried. *)
Theorem create_service_stores_uploaded_url host service w r w' :
  truthy_str (sc_image_base64 service) = true ->
  create_service host service w = (Val r, w') ->
  exists payload res,
    upload_payload (default "" (sc_image_base64 service)) = Val payload
    /\ uploader_upload host ("data:image/png;base64," +:+ payload)
         "services/images" None = Val res
    /\ attr r "image_url" = VStr (ur_secure_url res)
    /\ table w' = table w ++ [r]
    /\ calls w' = calls w ++ [EvUpload ("data:image/png;base64," +:+ payload)
                                "services/images" None;
                              EvDbInsert r; EvCacheInvalidate].
Proof.
  intros Himg. rewrite create_service_run, Himg.
  destruct (upload_image_cloudinary _ _ _ _ w) as [[d|e] w1] eqn:Hup;
    [|discriminate].
  apply upload_image_success_payload in Hup
    as (payload & res & Hp & Hres & -> & ->).
  rewrite insert_then_invalidate. intros [= <- <-].
  exists payload, res. split; [exact Hp|]. split; [exact Hres|].
  split; [|split].
  - rewrite attr_insert_ne by discriminate.
    rewrite attr_persist_column by apply image_url_is_column.
    apply attr_insert_eq.
  - reflexivity.
  - unfold log, set_cache; cbn [calls]. rewrite <- !app_assoc. reflexivity.
Qed.

Lemma create_service_stores_uploaded_url_witness :
  nth_error (calls created.2) 0
  = Some (EvUpload "data:image/png;base64,QUJD" "services/images" None)
  /\ (fun r => attr r "image_url") <$> returned created
     = Some (VStr "https://res.cloudinary.com/demo/image/upload/v9/services/images/new.png").
Proof.
  destruct (returned created) as [r|] eqn:Hr; [|discriminate].
  destruct (create_service_stores_uploaded_url host_ok create_request world0
              r created.2) as (payload & res & Hp & Hres & Hattr & _ & Hcalls).
  - reflexivity.
  - vm_compute in Hr. injection Hr as <-. reflexivity.
  - injection Hp as <-. injection Hres as <-.
    split; [rewrite Hcalls; reflexivity|].
    simpl. rewrite Hattr. reflexivity.
Defined.

Lemma create_service_val host service w r w' :
  create_service host service w = (Val r, w') ->
  attr r "service_id" = VInt (next_id w)
  /\ table w' = table w ++ [r]
  /\ cache w' = None.
Proof.
  rewrite create_service_run.
  destruct (truthy_str (sc_image_base64 service)).
  - destruct (upload_image_cloudinary _ _ _ _ w) as [[d|e] w1] eqn:Hup;
      [|discriminate].
    apply upload_image_success in Hup as (sent & res & _ & _ & ->).
    rewrite insert_then_invalidate. intros [= <- <-].
    split; [apply attr_insert_eq | split; reflexivity].
  - rewrite insert_then_invalidate. intros [= <- <-].
    split; [apply attr_insert_eq | split; reflexivity].
Qed.

(** Create, then read: when no stored row carries the key the store hands
    out next, the record [create_service] returns is the one [read_service]
    finds under that key afterwards. *)
Theorem create_then_read_service host service w r w' :
  Forall (fun r0 => has_id (next_id w) r0 = false) (table w) ->
  create_service host service w = (Val r, w') ->
  attr r "service_id" = VInt (next_id w)
  /\ read_service (next_id w) w' = (Val r, log (EvDbFirst (next_id w)) w').
Proof.
  intros Hfresh Hrun.
  apply create_service_val in Hrun as (Hid & Htable & _).
  split; [exact Hid|].
  unfold read_service. rewrite bind_run. unfold db_first.
  rewrite Htable, find_app_fresh; [reflexivity | exact Hfresh |].
  unfold has_id. rewrite Hid. apply Z.eqb_refl.
Qed.

Lemma create_then_read_service_witness :
  exists r w',
    create_service host_ok plain_request world1 = (Val r, w')
    /\ read_service 2 w' = (Val r, log (EvDbFirst 2) w').
Proof.
  destruct (create_service host_ok plain_request world1) as [[r|e] w'] eqn:Hrun;
    [|discriminate].
  exists r, w'. split; [reflexivity|].
  apply (create_then_read_service host_ok plain_request world1 r w').
  - repeat constructor.
  - exact Hrun.
Defined.

(** ** More on [read_services] *)

Lemma update_service_val_cache host service_id u w r w' :
  update_service host service_id u w = (Val r, w') -> cache w' = None.
Proof.
  intros Hrun.
  destruct (List.find (has_id service_id) (table w)) as [db_service|] eqn:Hfind.
  - rewrite (update_service_found _ _ _ _ _ Hfind) in Hrun.
    apply bind_val in Hrun as (ud1 & w1 & _ & Hrun).
    apply bind_val in Hrun as (ud2 & w2 & _ & Hrun).
    apply commit_then_invalidate in Hrun as (_ & Hcache & _). exact Hcache.
  - rewrite (update_service_missing _ _ _ _ Hfind) in Hrun. discriminate.
Qed.

Lemma delete_service_val_cache host service_id w r w' :
  delete_service host service_id w = (Val r, w') -> cache w' = None.
Proof.
  intros Hrun.
  destruct (List.find (has_id service_id) (table w)) as [db_service|] eqn:Hfind.
  - rewrite (delete_service_found _ _ _ _ Hfind) in Hrun. cbv zeta in Hrun.
    injection Hrun as _ <-. reflexivity.
  - rewrite (delete_service_missing _ _ _ Hfind) in Hrun. discriminate.
Qed.

(** [read_services] with nothing usable in the cache. *)
Lemma read_services_miss page skip limit w :
  truthy_cached (cache w) = false ->
  read_services page skip limit w
  = let offset := Z.max skip 0 in
    let limit' := Z.min limit 100 in
    let w1 := log (EvDbPage offset limit') (log EvCacheGet w) in
    match page (table w) offset limit' with
    | [] => (Exn (HTTPException 404 "No Services Found"), w1)
    | results =>
        (Val (serialize <$> results),
         log (EvCachePopulate (serialize <$> results))
           (set_cache (Some (serialize <$> results)) w1))
    end.
Proof.
  intros Hmiss. rewrite read_services_run.
  destruct (cache w) as [[|service cached]|]; try reflexivity. discriminate.
Qed.

(** Read after write: the list request that follows a successful create,
    update or delete is answered from the table as the mutation left it,
    not from the cache: it returns the serialized page of that table, or
    the 404 when the page is empty. *)
Theorem read_services_after_mutation host page skip limit :
  let fresh w1 :=
    (read_services page skip limit w1).1
    = match page (table w1) (Z.max skip 0) (Z.min limit 100) with
      | [] => Exn (HTTPException 404 "No Services Found")
      | results => Val (serialize <$> results)
      end in
  (forall service w r w1,
      create_service host service w = (Val r, w1) -> fresh w1)
  /\ (forall service_id u w r w1,
         update_service host service_id u w = (Val r, w1) -> fresh w1)
  /\ (forall service_id w r w1,
         delete_service host service_id w = (Val r, w1) -> fresh w1).
Proof.
  intros fresh.
  assert (Hfresh : forall w1, cache w1 = None -> fresh w1).
  { intros w1 Hcache. unfold fresh. rewrite read_services_miss.
    - cbv zeta. destruct (page (table w1) _ _); reflexivity.
    - rewrite Hcache. reflexivity. }
  split; [|split].
  - intros service w r w1 Hrun. apply Hfresh.
    apply create_service_val in Hrun as (_ & _ & Hcache). exact Hcache.
  - intros service_id u w r w1 Hrun. apply Hfresh.
    exact (update_service_val_cache _ _ _ _ _ _ Hrun).
  - intros service_id w r w1 Hrun. apply Hfresh.
    exact (delete_service_val_cache _ _ _ _ _ Hrun).
Qed.

Lemma read_services_after_mutation_witness :
  (read_services sql_page 0 10 created.2).1
  = Val (serialize <$> sql_page (table created.2) 0 10)
  /\ (read_services sql_page 0 10 removed.2).1
     = Exn (HTTPException 404 "No Services Found").
Proof.
  destruct (read_services_after_mutation host_ok sql_page 0 10)
    as (Hcreate & _ & Hdelete).
  destruct (returned created) as [r1|] eqn:H1; [|discriminate].
  destruct (returned removed) as [r3|] eqn:H3; [|discriminate].
  split.
  - rewrite (Hcreate create_request world0 r1 created.2).
    + reflexivity.
    + vm_compute in H1. injection H1 as <-. reflexivity.
  - rewrite (Hdelete 1 world1 r3 removed.2).
    + reflexivity.
    + vm_compute in H3. injection H3 as <-. reflexivity.
Defined.



Lemma length_slice_window {A} (l : list A) start len :
  0 <= start -> 0 <= len ->
  Z.of_nat (length (Py.slice l start (start + len))) <= len.
Proof.
  intros Hstart Hlen. rewrite slice_window by assumption.
  rewrite length_firstn. lia.
Qed.

(** On a cache hit with a limit that is not negative, the answer has at
    most [min(limit, 100)] entries. *)
Theorem read_services_hit_bounded page skip limit w cached :
  cache w = Some cached ->
  cached <> [] ->
  0 <= limit ->
  exists services,
    (read_services page skip limit w).1 = Val services
    /\ Z.of_nat (length services) <= Z.min limit 100.
Proof.
  intros Hcache Hne Hlimit. rewrite read_services_run, Hcache. cbv zeta.
  destruct cached as [|service cached]; [contradiction|].
  eexists. split; [reflexivity|]. apply length_slice_window; lia.
Qed.

Lemma read_services_hit_bounded_witness :
  exists services,
    (read_services sql_page 0 500 world_cached).1 = Val services
    /\ Z.of_nat (length services) <= 100.
Proof.
  apply (read_services_hit_bounded sql_page 0 500 world_cached
           [serialize haircut]); [reflexivity | discriminate | lia].
Defined.

(** A negative limit is not rejected.  On a cache hit from the first
    offset it counts from the end: the answer is the cached list without
    its last [-limit] entries, however long that is. *)
Theorem read_services_hit_negative_limit page skip limit w cached :
  cache w = Some cached ->
  cached <> [] ->
  skip <= 0 ->
  limit < 0 ->
  (read_services page skip limit w).1
  = Val (firstn (length cached - Z.to_nat (- limit)) cached).
Proof.
  intros Hcache Hne Hskip Hlimit. rewrite read_services_run, Hcache. cbv zeta.
  destruct cached as [|service cached]; [contradiction|].
  cbn [fst]. f_equal. unfold Py.slice, Py.adjust.
  rewrite (Z.max_r skip 0), (Z.min_l limit 100) by lia.
  change (0 <? 0) with false. cbv iota.
  destruct (Z.ltb_spec (0 + limit) 0) as [_|Hge]; [|lia].
  rewrite Z.min_l by lia. change (Z.to_nat 0) with 0%nat. rewrite drop_0.
  f_equal. lia.
Qed.

Lemma read_services_hit_negative_limit_witness :
  (read_services sql_page 0 (-1) world_cached).1 = Val [].
Proof.
  apply (read_services_hit_negative_limit sql_page 0 (-1) world_cached
           [serialize haircut]); [reflexivity | discriminate | lia | lia].
Defined.

(** ** More on [update_service] *)

Lemma lookup_exclude_none d k :
  exclude_none d !! k
  = match d !! k with
    | Some v => if is_none v then None else Some v
    | None => None
    end.
Proof.
  unfold exclude_none. destruct (d !! k) as [v|] eqn:Hk.
  - destruct (is_none v) eqn:Hv.
    + apply map_lookup_filter_None. right. intros v' Hv'.
      rewrite Hk in Hv'. injection Hv' as <-. simpl. congruence.
    + apply map_lookup_filter_Some. split; [exact Hk | exact Hv].
  - apply map_lookup_filter_None. left. exact Hk.
Qed.

Lemma attr_exclude_none_union d o k :
  attr (exclude_none d ∪ o) k
  = if is_none (attr d k) then attr o k else attr d k.
Proof.
  unfold attr. rewrite lookup_union, lookup_exclude_none.
  destruct (d !! k) as [v|]; simpl.
  - destruct (is_none v) eqn:Hv.
    + rewrite (left_id None _). reflexivity.
    + destruct (o !! k); reflexivity.
  - rewrite (left_id None _). reflexivity.
Qed.

(** The record an update ends with, for attributes other than the two
    image controls: a field the request gives comes from the request,
    unless the image steps touched it. *)
Lemma attr_update_result u db_service k :
  k <> "remove_image" -> k <> "image_base64" ->
  attr (setattrs (update_fields u) (update_loaded u db_service)) k
  = if is_none (attr (su_fields u) k) then attr db_service k
    else attr (su_fields u) k.
Proof.
  intros H1 H2.
  pose proof (attr_exclude_none_union (su_fields u) db_service k) as H.
  unfold attr at 1 in H. rewrite lookup_union in H.
  unfold attr at 1, update_fields, update_loaded, setattrs.
  rewrite lookup_union, !lookup_delete_ne by congruence.
  rewrite lookup_union, !lookup_su_dict_other by assumption.
  destruct (exclude_none (su_fields u) !! k) as [v|].
  - destruct (db_service !! k); exact H.
  - rewrite (left_id None _). exact H.
Qed.

(** The two image controls of an update are not columns. *)
Lemma column_not_control k :
  k ∈ service_columns -> k <> "remove_image" /\ k <> "image_base64".
Proof.
  intros Hk. apply list_elem_of_In in Hk.
  split; intros ->; simpl in Hk; intuition discriminate.
Qed.

(** A partial update: with no image to remove and none to upload, an
    [update_service] that returns has made no call to the media host.
    In the record it returns and in the row it writes, each column other
    than the two timestamps takes the value the request gives for it, and
    keeps what the record had where the request leaves it at [None]. *)
Theorem update_service_partial_fields host service_id u w db_service r w' :
  List.find (has_id service_id) (table w) = Some db_service ->
  truthy_bool (su_remove_image u) = false ->
  truthy_str (su_image_base64 u) = false ->
  update_service host service_id u w = (Val r, w') ->
  (forall k, k ∈ service_columns ->
             k <> "created_at" -> k <> "updated_at" ->
             attr r k = (if is_none (attr (su_fields u) k)
                         then attr db_service k
                         else attr (su_fields u) k)
             /\ attr (persist r) k = attr r k)
  /\ calls w' = calls w ++ [EvDbFirst service_id;
                            EvDbUpdate service_id (persist r);
                            EvCacheInvalidate].
Proof.
  intros Hfind Hflag Hpayload.
  rewrite (update_service_found _ _ _ _ _ Hfind).
  rewrite bind_run, update_remove_image_run.
  unfold removal_target at 1. rewrite Hflag. cbn [andb].
  rewrite bind_run, update_upload_image_run, Hpayload.
  intros [= <- <-]. split.
  - intros k Hk _ _. split.
    + destruct (column_not_control k Hk). apply attr_update_result; assumption.
    + apply attr_persist_column, Hk.
  - unfold log, set_cache, set_table; cbn [calls].
    rewrite <- !app_assoc. reflexivity.
Qed.

Lemma update_service_partial_fields_witness :
  exists r w',
    update_service host_down 1 rename_request world1 = (Val r, w')
    /\ attr r "name" = VStr "Trim"
    /\ attr r "image_url" = VStr abc_url.
Proof.
  destruct (update_service host_down 1 rename_request world1)
    as [[r|e] w'] eqn:Hrun; [|discriminate].
  destruct (update_service_partial_fields host_down 1 rename_request world1
              haircut r w' eq_refl eq_refl eq_refl Hrun) as (Hattr & _).
  exists r, w'. split; [reflexivity|]. split.
  - destruct (Hattr "name") as (-> & _);
      [apply list_elem_of_In; simpl; tauto | discriminate | discriminate |].
    reflexivity.
  - destruct (Hattr "image_url") as (-> & _);
      [apply image_url_is_column | discriminate | discriminate |].
    reflexivity.
Defined.

(** A removal that the host confirms clears the image: with [remove_image]
    set, no new payload and no [image_url] in the request, on a record
    whose image reference resolves to a blob id, the update removes that
    blob and the record it returns and writes has [image_url = None]. *)
Theorem update_service_removal_clears_image
    host service_id u w db_service url blob :
  List.find (has_id service_id) (table w) = Some db_service ->
  truthy_bool (su_remove_image u) = true ->
  truthy_str (su_image_base64 u) = false ->
  attr (su_fields u) "image_url" = VNone ->
  attr db_service "image_url" = VStr url ->
  url <> "" ->
  extract_public_id url = Val (Some blob) ->
  blob <> "" ->
  uploader_destroy host blob = Val (Some "ok") ->
  exists r w',
    update_service host service_id u w = (Val r, w')
    /\ attr r "image_url" = VNone
    /\ attr (persist r) "image_url" = VNone
    /\ calls w' = calls w ++ [EvDbFirst service_id; EvDestroy blob;
                              EvDbUpdate service_id (persist r);
                              EvCacheInvalidate].
Proof.
  intros Hfind Hflag Hpayload Hfields Himg Hurl Hid Hblob Hok.
  assert (Hloaded : attr (update_loaded u db_service) "image_url" = VStr url).
  { rewrite attr_update_loaded_absent by (assumption || discriminate).
    exact Himg. }
  assert (Htarget : removal_target u (update_loaded u db_service) = Some blob).
  { unfold removal_target, str_attr. rewrite Hloaded, Hflag.
    cbn [truthy_str from_option id andb truthy].
    apply String.eqb_neq in Hurl, Hblob. rewrite Hurl, Hid, Hblob.
    reflexivity. }
  assert (Hdestroy : destroy_ok host blob = true).
  { unfold destroy_ok. rewrite Hok. reflexivity. }
  rewrite (update_service_found _ _ _ _ _ Hfind).
  rewrite bind_run, update_remove_image_run, Htarget, Hdestroy.
  rewrite bind_run, update_upload_image_run, Hpayload.
  eexists _, _. split; [reflexivity|].
  assert (Hr : attr (setattrs (<["image_url" := VNone]> (update_fields u))
                       (update_loaded u db_service)) "image_url" = VNone).
  { unfold attr, setattrs.
    erewrite lookup_union_Some_l; [reflexivity|]. apply lookup_insert_eq. }
  split; [exact Hr|]. split.
  - rewrite attr_persist_column by apply image_url_is_column. exact Hr.
  - unfold log, set_cache, set_table; cbn [calls].
    rewrite <- !app_assoc. reflexivity.
Qed.

Lemma update_service_removal_clears_image_witness :
  exists r w',
    update_service host_ok 1 remove_request world1 = (Val r, w')
    /\ attr r "image_url" = VNone.
Proof.
  destruct (update_service_removal_clears_image host_ok 1 remove_request world1
              haircut abc_url "services/images/abc")
    as (r & w' & Hrun & Hattr & _);
    try reflexivity; try discriminate.
  exists r, w'. split; [exact Hrun | exact Hattr].
Defined.

(** An update whose upload fails raises that failure, the 400 "Image
    upload failed", with nothing written and the cache not invalidated.
    What the remove-image step did before stays done.  It made at most one
    removal call, none unless [remove_image] is set; when it is set, the
    request carries no [image_url] of its own and the stored reference
    resolves to a non-empty blob id, the removal of that blob was requested
    before the upload, and the record keeps its reference to it. *)
Theorem update_service_upload_failure host service_id u w db_service e :
  List.find (has_id service_id) (table w) = Some db_service ->
  truthy_str (su_image_base64 u) = true ->
  (upload_image_cloudinary host (default "" (su_image_base64 u))
     "services/images" None w).1 = Exn e ->
  exists w' removal tail,
    update_service host service_id u w = (Exn e, w')
    /\ (exists cause, e = HTTPException 400 ("Image upload failed: " +:+ cause))
    /\ table w' = table w
    /\ cache w' = cache w
    /\ calls w' = calls w ++ [EvDbFirst service_id] ++ removal ++ tail
    /\ (tail = [] \/ exists sent, tail = [EvUpload sent "services/images" None])
    /\ (removal = [] \/ exists blob, removal = [EvDestroy blob])
    /\ (truthy_bool (su_remove_image u) = false -> removal = [])
    /\ (forall url blob,
           truthy_bool (su_remove_image u) = true ->
           attr (su_fields u) "image_url" = VNone ->
           attr db_service "image_url" = VStr url ->
           url <> "" ->
           extract_public_id url = Val (Some blob) ->
           blob <> "" ->
           removal = [EvDestroy blob]).
Proof.
  intros Hfind Hpayload Hfail.
  rewrite (update_service_found _ _ _ _ _ Hfind).
  rewrite bind_run, update_remove_image_run.
  set (target := removal_target u (update_loaded u db_service)).
  set (w1 := match target with
             | Some blob => log (EvDestroy blob) (log (EvDbFirst service_id) w)
             | None => log (EvDbFirst service_id) w
             end).
  assert (Hw1 : same_store w w1
                /\ calls w1 = calls w ++ [EvDbFirst service_id]
                              ++ match target with
                                 | Some blob => [EvDestroy blob]
                                 | None => []
                                 end).
  { unfold w1. destruct target; (split; [repeat split|]);
      unfold log; cbn [calls]; rewrite <- ?app_assoc; reflexivity. }
  destruct Hw1 as (Hstore1 & Hcalls1).
  replace (match target with
           | Some public_id =>
               (Val (if destroy_ok host public_id
                     then <["image_url" := VNone]> (update_fields u)
                     else update_fields u),
                log (EvDestroy public_id) (log (EvDbFirst service_id) w))
           | None => (Val (update_fields u), log (EvDbFirst service_id) w)
           end)
    with (Val (match target with
               | Some public_id =>
                   if destroy_ok host public_id
                   then <["image_url" := VNone]> (update_fields u)
                   else update_fields u
               | None => update_fields u
               end), w1)
    by (unfold w1; destruct target; reflexivity).
  rewrite bind_run, update_upload_image_run, Hpayload.
  rewrite (upload_image_result_any_world _ _ _ _ w w1) in Hfail.
  destruct (upload_image_cloudinary _ _ _ _ w1) as [[d|e0] w2] eqn:Hup;
    [discriminate|].
  cbn [fst] in Hfail. injection Hfail as ->.
  apply upload_image_failure in Hup as (Hcause & Hstore2 & Hlog).
  pose proof (same_store_trans _ _ _ Hstore1 Hstore2) as (Ht & _ & Hc).
  exists w2,
    (match target with Some blob => [EvDestroy blob] | None => [] end).
  assert (Hshape :
            (match target with Some blob => [EvDestroy blob] | None => [] end
             = [] \/ exists blob,
                match target with Some blob => [EvDestroy blob] | None => [] end
                = [EvDestroy blob])
            /\ (truthy_bool (su_remove_image u) = false ->
                match target with Some blob => [EvDestroy blob] | None => [] end
                = [])
            /\ (forall url blob,
                   truthy_bool (su_remove_image u) = true ->
                   attr (su_fields u) "image_url" = VNone ->
                   attr db_service "image_url" = VStr url ->
                   url <> "" ->
                   extract_public_id url = Val (Some blob) ->
                   blob <> "" ->
                   match target with Some blob => [EvDestroy blob] | None => [] end
                   = [EvDestroy blob])).
  { unfold target. split; [|split].
    - destruct (removal_target u (update_loaded u db_service)); eauto.
    - intros Hflag. rewrite (removal_target_unset _ _ Hflag). reflexivity.
    - intros url blob Hflag Hfields Hstored Hurl Hid Hblob.
      rewrite (removal_target_stored _ _ _ _ Hflag Hfields Hstored Hurl Hid
                 Hblob).
      reflexivity. }
  unfold extends in Hlog.
  destruct Hlog as [Hlog|[sent Hlog]].
  - exists []. split; [reflexivity|]. split; [exact Hcause|].
    split; [exact Ht|]. split; [exact Hc|]. split.
    + rewrite Hlog, Hcalls1, <- !app_assoc. reflexivity.
    + split; [left; reflexivity | exact Hshape].
  - exists [EvUpload sent "services/images" None].
    split; [reflexivity|]. split; [exact Hcause|].
    split; [exact Ht|]. split; [exact Hc|]. split.
    + rewrite Hlog, Hcalls1, <- !app_assoc. reflexivity.
    + split; [right; eauto | exact Hshape].
Qed.

Lemma update_service_upload_failure_witness :
  exists w',
    update_service host_full 1 replace_request world1
    = (Exn (HTTPException 400 "Image upload failed: quota exceeded"), w')
    /\ table w' = [haircut]
    /\ nth_error (calls w') 1 = Some (EvDestroy "services/images/abc").
Proof.
  destruct (update_service_upload_failure host_full 1 replace_request world1
              haircut (HTTPException 400 "Image upload failed: quota exceeded")
              eq_refl eq_refl eq_refl)
    as (w' & removal & tail & Hrun & _ & Htable & _ & Hcalls & _ & _ & _ & Hold).
  exists w'. split; [exact Hrun|]. split; [exact Htable|].
  rewrite (Hold abc_url "services/images/abc") in Hcalls;
    [|reflexivity|reflexivity|reflexivity|discriminate|reflexivity
     |discriminate].
  rewrite Hcalls. reflexivity.
Defined.

(** An update rewrites the rows that carry its id and nothing else: the
    table keeps its length, every row with another id stays where it was,
    and the key counter does not move. *)
Theorem update_service_keeps_other_rows host service_id u w r w' :
  update_service host service_id u w = (Val r, w') ->
  length (table w') = length (table w)
  /\ next_id w' = next_id w
  /\ forall i r0, nth_error (table w) i = Some r0 ->
                  has_id service_id r0 = false ->
                  nth_error (table w') i = Some r0.
Proof.
  intros Hrun.
  destruct (List.find (has_id service_id) (table w)) as [db_service|] eqn:Hfind.
  - rewrite (update_service_found _ _ _ _ _ Hfind) in Hrun.
    apply bind_val in Hrun as (ud1 & w1 & Hrm & Hrun).
    apply bind_val in Hrun as (ud2 & w2 & Hup & Hrun).
    assert (Hs1 : same_store w w1).
    { rewrite update_remove_image_run in Hrm.
      destruct (removal_target u (update_loaded u db_service));
        injection Hrm as _ <-; repeat split. }
    assert (Hs2 : same_store w1 w2).
    { rewrite update_upload_image_run in Hup.
      destruct (truthy_str (su_image_base64 u)).
      - destruct (upload_image_cloudinary _ _ _ _ w1) as [[d|e] w1'] eqn:Hd;
          [|discriminate].
        injection Hup as _ <-.
        apply upload_image_success in Hd as (sent & res & _ & _ & ->).
        apply same_store_log.
      - injection Hup as _ <-. apply same_store_refl. }
    destruct (same_store_trans _ _ _ Hs1 Hs2) as (Ht & Hn & _).
    assert (Hnext : next_id w' = next_id w2) by (injection Hrun as _ <-; reflexivity).
    apply commit_then_invalidate in Hrun as (_ & _ & Htable & _).
    rewrite Htable, Ht, Hnext, Hn. split; [apply length_map|].
    split; [reflexivity|].
    intros i r0 Hi Hr0. rewrite nth_error_map, Hi. simpl. rewrite Hr0.
    reflexivity.
  - rewrite (update_service_missing _ _ _ _ Hfind) in Hrun. discriminate.
Qed.

Lemma update_service_keeps_other_rows_witness :
  nth_error (table (update_service host_ok 1 remove_request world2).2) 1
  = Some shave.
Proof.
  destruct (update_service host_ok 1 remove_request world2)
    as [[r|e] w'] eqn:Hrun; [|discriminate].
  destruct (update_service_keeps_other_rows host_ok 1 remove_request world2 r w'
              Hrun) as (_ & _ & Hrows).
  apply Hrows; reflexivity.
Defined.

(** ** More on [delete_service] *)

Lemma find_filter_out {A} (f : A -> bool) (l : list A) :
  List.find f (List.filter (fun x => negb (f x)) l) = None.
Proof.
  induction l as [|x l IH]; [reflexivity|].
  simpl. destruct (f x) eqn:Hx; simpl; [exact IH|].
  rewrite Hx. exact IH.
Qed.

(** A [delete_service] of a stored record that returns has, whatever the
    media host answered, requested the removal of the record's image at
    most once and before the row was deleted.  Afterwards no row with the
    id is left, rows with other ids are all still there, and
    [read_service] on the id raises the 404. *)
Theorem delete_service_removes_record host service_id w db_service r w' :
  List.find (has_id service_id) (table w) = Some db_service ->
  delete_service host service_id w = (Val r, w') ->
  success r = true
  /\ table w' = List.filter (fun r0 => negb (has_id service_id r0)) (table w)
  /\ calls w' = calls w ++ [EvDbFirst service_id]
                ++ match asset_target db_service "image_url" with
                   | Some blob => [EvDestroy blob]
                   | None => []
                   end
                ++ [EvDbDelete service_id; EvCacheInvalidate]
  /\ read_service service_id w'
     = (Exn (HTTPException 404 "Service not found"),
        log (EvDbFirst service_id) w').
Proof.
  intros Hfind. rewrite (delete_service_found _ _ _ _ Hfind). cbv zeta.
  intros [= <- <-].
  assert (Htable :
            forall w2, table w2 = table w ->
                       table (log EvCacheInvalidate
                                (set_cache None
                                   (log (EvDbDelete service_id)
                                      (set_table
                                         (List.filter
                                            (fun r => negb (has_id service_id r))
                                            (table w2)) w2))))
                       = List.filter (fun r0 => negb (has_id service_id r0))
                           (table w)).
  { intros w2 H2. simpl. rewrite H2. reflexivity. }
  split; [|split; [|split]].
  - destruct (asset_target db_service "image_url") as [blob|]; simpl;
      [destruct (destroy_ok host blob)|]; reflexivity.
  - apply Htable.
    destruct (asset_target db_service "image_url"); reflexivity.
  - destruct (asset_target db_service "image_url") as [blob|];
      unfold log, set_cache, set_table; cbn [calls app];
      rewrite <- !app_assoc; reflexivity.
  - unfold read_service. rewrite bind_run. unfold db_first.
    rewrite Htable
      by (destruct (asset_target db_service "image_url"); reflexivity).
    rewrite find_filter_out. reflexivity.
Qed.

Lemma delete_service_removes_record_witness :
  exists r w',
    delete_service host_down 1 world2 = (Val r, w')
    /\ table w' = [shave]
    /\ read_service 1 w'
       = (Exn (HTTPException 404 "Service not found"), log (EvDbFirst 1) w').
Proof.
  destruct (delete_service host_down 1 world2) as [[r|e] w'] eqn:Hrun;
    [|discriminate].
  destruct (delete_service_removes_record host_down 1 world2 haircut r w'
              eq_refl Hrun) as (_ & Htable & _ & Hread).
  exists r, w'. split; [reflexivity|]. split; [|exact Hread].
  rewrite Htable. reflexivity.
Defined.

(** The message of the delete summary counts one removed asset, named
    [image], exactly when the record had an image whose removal the host
    confirmed, and otherwise counts zero and names [none]. *)
Theorem delete_service_reports_removal host service_id w db_service :
  List.find (has_id service_id) (table w) = Some db_service ->
  exists r,
    returned (delete_service host service_id w) = Some r
    /\ message r
       = if match asset_target db_service "image_url" with
            | Some blob => destroy_ok host blob
            | None => false
            end
         then "Service deleted successfully. Deleted 1 associated assets: image"
         else "Service deleted successfully. Deleted 0 associated assets: none".
Proof.
  intros Hfind. rewrite (delete_service_found _ _ _ _ Hfind). cbv zeta.
  eexists. split; [reflexivity|].
  destruct (asset_target db_service "image_url") as [blob|]; simpl;
    [destruct (destroy_ok host blob)|]; reflexivity.
Qed.

Lemma delete_service_reports_removal_witness :
  exists r,
    returned (delete_service host_down 1 world1) = Some r
    /\ message r
       = "Service deleted successfully. Deleted 0 associated assets: none".
Proof.
  destruct (delete_service_reports_removal host_down 1 world1 haircut eq_refl)
    as (r & Hrun & Hmsg).
  exists r. split; [exact Hrun|]. rewrite Hmsg. reflexivity.
Defined.

(** On an id no stored row carries, update and delete raise their 404
    after the lookup alone: no call to the media host, no write, no
    invalidation.  The two details differ. *)
Theorem unknown_id_not_found host service_id u w :
  Forall (fun r => has_id service_id r = false) (table w) ->
  update_service host service_id u w
  = (Exn (HTTPException 404 "Service was not found"),
     log (EvDbFirst service_id) w)
  /\ delete_service host service_id w
     = (Exn (HTTPException 404 "Service not found"),
        log (EvDbFirst service_id) w).
Proof.
  intros Hnone. apply find_none_iff in Hnone. split.
  - apply update_service_missing, Hnone.
  - apply delete_service_missing, Hnone.
Qed.

Lemma unknown_id_not_found_witness :
  update_service host_ok 7 replace_request world1
  = (Exn (HTTPException 404 "Service was not found"), log (EvDbFirst 7) world1)
  /\ delete_service host_ok 7 world1
     = (Exn (HTTPException 404 "Service not found"), log (EvDbFirst 7) world1).
Proof.
  apply unknown_id_not_found. repeat constructor.
Defined.

(** ** [delete_cloudinary_image] and [upload_service_image] *)

Lemma delete_cloudinary_image_run host public_id w :
  delete_cloudinary_image host public_id w
  = let clean := clean_public_id public_id in
    if Py.contains "http" clean then
      (Exn (HTTPException 400 "Please provide only the public_id, not full URL"),
       w)
    else if destroy_ok host clean then
      (Val {| success := true;
              message := "Image " +:+ clean +:+ " deleted successfully";
              public_id := Some clean |},
       log (EvDestroy clean) w)
    else
      (Exn (HTTPException 404
              ("Image " +:+ clean +:+ " not found or already deleted")),
       log (EvDestroy clean) w).
Proof.
  unfold delete_cloudinary_image, try_exceptM, clean_public_id.
  rewrite bind_run. unfold lift.
  destruct (extract_public_id_total public_id) as [r ->].
  assert (Hclean :
            (if truthy_str r then default "" r else public_id)
            = match r with
              | Some extracted =>
                  if truthy (VStr extracted) then extracted else public_id
              | None => public_id
              end).
  { destruct r as [extracted|]; [|reflexivity].
    cbn [truthy_str from_option id]. reflexivity. }
  rewrite Hclean. clear Hclean.
  set (clean := match r with
                | Some extracted =>
                    if truthy (VStr extracted) then extracted else public_id
                | None => public_id
                end).
  cbv zeta. destruct (Py.contains "http" clean); [reflexivity|].
  rewrite bind_run, delete_image_run.
  destruct (destroy_ok host clean); reflexivity.
Qed.

Lemma split_head_http sep rest :
  Ascii.eqb "h" sep = false -> Ascii.eqb "t" sep = false ->
  Ascii.eqb "p" sep = false ->
  exists tail, Py.getitem (Py.split sep ("http" +:+ rest)) 0%nat
               = Val ("http" +:+ tail).
Proof.
  intros Hh Ht Hp.
  destruct (getitem_split_head sep rest) as [tail Htail].
  exists tail.
  change ("http" +:+ rest)
    with (String "h" (String "t" (String "t" (String "p" rest)))).
  cbn [Py.split]. rewrite Hh, Ht, Hp.
  destruct (Py.split sep rest) as [|x xs]; [discriminate|].
  injection Htail as ->. reflexivity.
Qed.

(** An [http] or [https] URL that is not on the media host is turned
    away with the 400 before the host is called. *)
Theorem delete_cloudinary_image_rejects_url host rest w :
  Py.contains "res.cloudinary.com" ("http" +:+ rest) = false ->
  delete_cloudinary_image host ("http" +:+ rest) w
  = (Exn (HTTPException 400 "Please provide only the public_id, not full URL"),
     w).
Proof.
  intros Hmarker. rewrite delete_cloudinary_image_run. cbv zeta.
  destruct (split_head_http "." rest eq_refl eq_refl eq_refl) as [tail Htail].
  assert (Hclean : clean_public_id ("http" +:+ rest) = "http" +:+ tail).
  { unfold clean_public_id, extract_public_id.
    change (truthy (VStr ("http" +:+ rest))) with true.
    rewrite Hmarker. cbn [negb]. rewrite Htail. reflexivity. }
  assert (Hin : Py.contains "http" ("http" +:+ tail) = true)
    by (destruct tail; reflexivity).
  rewrite Hclean, Hin. reflexivity.
Qed.

Lemma delete_cloudinary_image_rejects_url_witness :
  delete_cloudinary_image host_ok "https://host/a.jpg" world0
  = (Exn (HTTPException 400 "Please provide only the public_id, not full URL"),
     world0).
Proof.
  apply (delete_cloudinary_image_rejects_url host_ok "s://host/a.jpg" world0).
  reflexivity.
Defined.

(** When the cleaned id holds no [http], exactly one removal is asked of
    the host, for the cleaned id.  A confirmed removal gives the summary
    with that id; anything else gives the 404 naming it.  Table and cache
    are left alone either way, and the cleaned id has no dot unless it is
    the input itself. *)
Theorem delete_cloudinary_image_outcomes host public_id w :
  Py.contains "http" (clean_public_id public_id) = false ->
  let clean := clean_public_id public_id in
  delete_cloudinary_image host public_id w
  = (if destroy_ok host clean then
       Val {| success := true;
              message := "Image " +:+ clean +:+ " deleted successfully";
              public_id := Some clean |}
     else
       Exn (HTTPException 404
              ("Image " +:+ clean +:+ " not found or already deleted")),
     log (EvDestroy clean) w)
  /\ (Py.contains "." clean = false \/ clean = public_id).
Proof.
  intros Hhttp clean. split.
  - rewrite delete_cloudinary_image_run. cbv zeta. fold clean.
    unfold clean in Hhttp |- *. rewrite Hhttp.
    destruct (destroy_ok host (clean_public_id public_id)); reflexivity.
  - unfold clean, clean_public_id.
    destruct (extract_public_id public_id) as [[extracted|]|e] eqn:Hid;
      try (right; reflexivity).
    destruct (truthy (VStr extracted)); [|right; reflexivity].
    left. exact (extract_public_id_result_no_dot _ _ Hid).
Qed.

Lemma delete_cloudinary_image_outcomes_witness :
  delete_cloudinary_image host_ok abc_url world0
  = (Val {| success := true;
            message := "Image services/images/abc deleted successfully";
            public_id := Some "services/images/abc" |},
     log (EvDestroy "services/images/abc") world0).
Proof.
  destruct (delete_cloudinary_image_outcomes host_ok abc_url world0 eq_refl)
    as (Hrun & _).
  rewrite Hrun. reflexivity.
Defined.

Lemma upload_service_image_run host upload_data w :
  upload_service_image host upload_data w
  = if truthy_str (iu_image_base64 upload_data) then
      match upload_image_cloudinary host
              (default "" (iu_image_base64 upload_data))
              (if truthy_bool (iu_is_icon upload_data)
               then "services/icons" else "services/images") None w with
      | (Val result, w1) =>
          (Val {| iur_success := true;
                  iur_url := ud_url result;
                  iur_public_id := ud_public_id result |}, w1)
      | (Exn e, w1) => (Exn e, w1)
      end
    else (Exn (HTTPException 400 "image_base64 is required"), w).
Proof.
  unfold upload_service_image, try_exceptM.
  destruct (truthy_str (iu_image_base64 upload_data)); [|reflexivity].
  cbn [negb]. cbv zeta. rewrite bind_run.
  destruct (upload_image_cloudinary _ _ _ _ w) as [[d|e] w1] eqn:Hup;
    [reflexivity|].
  apply upload_image_failure in Hup as ((cause & ->) & _). reflexivity.
Qed.

(** Without a payload, absent or empty, [upload_service_image] raises the
    400 "image_base64 is required" and calls nothing. *)
Theorem upload_service_image_requires_payload host upload_data w :
  truthy_str (iu_image_base64 upload_data) = false ->
  upload_service_image host upload_data w
  = (Exn (HTTPException 400 "image_base64 is required"), w).
Proof.
  intros Hpayload. rewrite upload_service_image_run, Hpayload. reflexivity.
Qed.

Lemma upload_service_image_requires_payload_witness :
  upload_service_image host_ok
    {| iu_image_base64 := Some ""; iu_is_icon := Some true |} world0
  = (Exn (HTTPException 400 "image_base64 is required"), world0).
Proof.
  apply upload_service_image_requires_payload. reflexivity.
Defined.

(** With a payload, [upload_service_image] uploads to [services/icons]
    when the icon flag is set and to [services/images] otherwise.  It
    answers with the host's secure URL and public id, or raises the 400 of
    the failed upload as it is, never a 500; table and cache are left
    alone. *)
Theorem upload_service_image_outcomes host upload_data w :
  truthy_str (iu_image_base64 upload_data) = true ->
  let folder := if truthy_bool (iu_is_icon upload_data)
                then "services/icons" else "services/images" in
  same_store w (upload_service_image host upload_data w).2
  /\ match (upload_service_image host upload_data w).1 with
     | Val response =>
         exists sent res,
           uploader_upload host sent folder None = Val res
           /\ response = {| iur_success := true;
                            iur_url := ur_secure_url res;
                            iur_public_id := ur_public_id res |}
           /\ calls (upload_service_image host upload_data w).2
              = calls w ++ [EvUpload sent folder None]
     | Exn e =>
         exists cause,
           e = HTTPException 400 ("Image upload failed: " +:+ cause)
     end.
Proof.
  intros Hpayload folder. rewrite upload_service_image_run, Hpayload.
  fold folder.
  destruct (upload_image_cloudinary host _ folder None w) as [[d|e] w1] eqn:Hup.
  - pose proof Hup as Hrun. rewrite upload_image_run in Hrun.
    destruct (upload_payload _) as [p|e0]; [|discriminate].
    cbv zeta in Hrun.
    destruct (uploader_upload host _ folder None) as [res|e0] eqn:Hres;
      [|discriminate].
    injection Hrun as <- <-. cbn [fst snd].
    split; [apply same_store_log|]. eauto.
  - apply upload_image_failure in Hup as (Hcause & Hstore & _).
    cbn [fst snd]. split; [exact Hstore | exact Hcause].
Qed.

Lemma upload_service_image_outcomes_witness :
  (upload_service_image host_ok
     {| iu_image_base64 := Some "QUJD"; iu_is_icon := Some true |} world0).1
  = Val {| iur_success := true;
           iur_url := "https://res.cloudinary.com/demo/image/upload/v9/services/icons/new.png";
           iur_public_id := "services/icons/new" |}.
Proof.
  destruct (upload_service_image_outcomes host_ok
              {| iu_image_base64 := Some "QUJD"; iu_is_icon := Some true |}
              world0 eq_refl) as (_ & Hrun).
  destruct (upload_service_image host_ok _ world0).1 as [response|e] eqn:Hr;
    [|vm_compute in Hr; discriminate].
  destruct Hrun as (sent & res & Hres & -> & _).
  injection Hres as <-. reflexivity.
Defined.
